(** * Widgets: the sentinel results of [messaging.py] and the
      [DoubleSlider] and [Group] classes of [gui_elements.py]

    A shallow embedding of the Python source.  Objects are records of
    their attributes, methods are functions from the receiver (and the
    arguments) to a [result]: either the returned value together with the
    receiver as the call left it, or the exception that escaped.

    Numbers.  Python's unbounded integers are [Z].  A Python number that
    takes part in the slider's arithmetic is a rational ([Q]) and the
    arithmetic on it is exact: there are no infinities and no NaN, a
    result is not rounded, and an integer of any size takes part in a
    division.  The interpreter agrees with this where no rounding and no
    overflow occurs; [finite_float] says which rationals are values of a
    Python float, and the statements that depend on the outcome of the
    arithmetic are made for such values, or for the value 0. *)

From Stdlib Require Import ZArith QArith Qround String Ascii DecimalString List Bool Lia.
Import ListNotations.
Open Scope string_scope.

(** ** Results of calls *)

(** An exception is identified by the name of its class. *)
Definition exn := string.

Inductive result (A : Type) : Type :=
| Ok (a : A)
| Raise (e : exn).
Arguments Ok {A} a.
Arguments Raise {A} e.

Definition bind {A B : Type} (m : result A) (k : A -> result B) : result B :=
  match m with
  | Ok a => k a
  | Raise e => Raise e
  end.

Notation "x <- m ;; k" := (bind m (fun x => k))
  (at level 61, m at next level, right associativity).

Definition returns {A : Type} (m : result A) : bool :=
  match m with
  | Ok _ => true
  | Raise _ => false
  end.

(** Reading an instance attribute that may not have been assigned yet. *)
Definition getattr {A : Type} (slot : option A) : result A :=
  match slot with
  | Some a => Ok a
  | None => Raise "AttributeError"
  end.

(** ** messaging.py: [Failure] and [Success] *)

Module Messaging.

Inductive cls := FailureCls | SuccessCls.

(** Both classes derive from [int]: an instance is an integer carrying
    one instance attribute, [_message] ([None] or a [str]). *)
Record sentinel := mk_sentinel {
  klass : cls;
  int_value : Z;
  _message : option string
}.

(** [bool(0)] and [bool(1)], then [int.__new__(cls, <that bool>)]. *)
Definition py_bool (n : Z) : bool := negb (n =? 0)%Z.
Definition int_new (c : cls) (b : bool) (message : option string) : sentinel :=
  {| klass := c; int_value := Z.b2z b; _message := None |}.

(** [__new__] ignores [message]; [__init__] stores it in [_message]. *)
Definition __init__ (self : sentinel) (message : option string) : sentinel :=
  {| klass := klass self; int_value := int_value self; _message := message |}.

Definition Failure (message : option string) : sentinel :=
  __init__ (int_new FailureCls (py_bool 0) message) message.

Definition Success (message : option string) : sentinel :=
  __init__ (int_new SuccessCls (py_bool 1) message) message.

(** The [message] property and its setter. *)
Definition message (self : sentinel) : option string := _message self.
Definition set_message (self : sentinel) (value : option string) : sentinel :=
  {| klass := klass self; int_value := int_value self; _message := value |}.

(** Truth value.  Neither class defines [__bool__] (the [__nonzero__]
    they define is the Python 2 hook, which Python 3 never calls), so
    the test is the one of [int]: the integer is not zero. *)
Definition truthy (self : sentinel) : bool := negb (int_value self =? 0)%Z.

(** The Python 2 hook, as written in each class. *)
Definition __nonzero__ (self : sentinel) : bool :=
  match klass self with
  | FailureCls => false
  | SuccessCls => true
  end.

Definition is_success (self : sentinel) : bool :=
  match klass self with
  | SuccessCls => true
  | FailureCls => false
  end.

End Messaging.

(** ** Python arithmetic on the idealised numbers *)

(** [x / y] on numbers: true division, which raises on a zero divisor.
    The quotient is exact; the interpreter rounds it, and raises
    [OverflowError] instead when an operand is an integer too large to
    be converted to a float. *)
Definition truediv (x y : Q) : result Q :=
  if Qeq_bool y 0 then Raise "ZeroDivisionError" else Ok (x / y)%Q.

(** The finite values of a Python float (IEEE 754 binary64): zero, and
    the rationals [m * 2^e] with [m] odd, [|m| < 2^53], [e >= -1074] and
    magnitude below [2^1024]. *)
Fixpoint trailing_zeros (p : positive) : Z :=
  match p with
  | xO q => 1 + trailing_zeros q
  | _ => 0
  end.

Definition finite_float (x : Q) : bool :=
  let y := Qred x in
  let d := Zpos (Qden y) in
  match Qnum y with
  | Z0 => true
  | Zpos n | Zneg n =>
      (d =? 2 ^ Z.log2 d)%Z
      && (Z.log2 d <=? 1074)%Z
      && (Z.log2 (Zpos n) - trailing_zeros n <? 53)%Z
      && (Z.log2 (Zpos n) - Z.log2 d <? 1024)%Z
  end.

(** [int(x)]: truncation toward zero. *)
Definition py_int (x : Q) : Z := Z.quot (Qnum x) (Zpos (Qden x)).

(** ** gui_elements.py: [DoubleSlider] *)

Module Slider.

(** The toolkit's base class keeps the integer range and the integer
    position of the handle.  [QSlider()] starts at [0..99], position 0;
    its [setValue] takes a C [int] (the binding raises [OverflowError]
    for an integer outside 32 bits) and bounds the position by the
    range; its [value] reads the position. *)
Record QSlider := mk_QSlider {
  q_minimum : Z;
  q_maximum : Z;
  q_value : Z
}.

Definition QSlider_init : QSlider :=
  {| q_minimum := 0; q_maximum := 99; q_value := 0 |}.

(** A [DoubleSlider] instance: the base part and the three instance
    attributes, each absent until [__init__] assigns it. *)
Record DoubleSlider := mk_DoubleSlider {
  qslider : QSlider;
  _max_int : option Z;
  _min_value : option Q;
  _max_value : option Q
}.

Definition with_qslider (self : DoubleSlider) (b : QSlider) : DoubleSlider :=
  {| qslider := b; _max_int := _max_int self;
     _min_value := _min_value self; _max_value := _max_value self |}.
Definition set_max_int (self : DoubleSlider) (n : Z) : DoubleSlider :=
  {| qslider := qslider self; _max_int := Some n;
     _min_value := _min_value self; _max_value := _max_value self |}.
Definition set_min_value (self : DoubleSlider) (x : Q) : DoubleSlider :=
  {| qslider := qslider self; _max_int := _max_int self;
     _min_value := Some x; _max_value := _max_value self |}.
Definition set_max_value (self : DoubleSlider) (x : Q) : DoubleSlider :=
  {| qslider := qslider self; _max_int := _max_int self;
     _min_value := _min_value self; _max_value := Some x |}.

(** The base-class accessors, as functions on the whole instance. *)
Definition QSlider_value (self : DoubleSlider) : result Q :=
  Ok (inject_Z (q_value (qslider self))).

Definition QSlider_setValue (self : DoubleSlider) (k : Z) : result DoubleSlider :=
  let b := qslider self in
  if ((k <? - 2 ^ 31) || (2 ^ 31 - 1 <? k))%Z then Raise "OverflowError"
  else
    Ok (with_qslider self
          {| q_minimum := q_minimum b; q_maximum := q_maximum b;
             q_value := Z.max (q_minimum b) (Z.min (q_maximum b) k) |}).

(** The property [_value_range]: [self._max_value - self._min_value]. *)
Definition _value_range (self : DoubleSlider) : result Q :=
  hi <- getattr (_max_value self) ;;
  lo <- getattr (_min_value self) ;;
  Ok (hi - lo)%Q.

(** *** Method bodies

    A body reaches other methods through [self], so which function
    answers is decided by the class of the instance.  Each body takes
    the functions that answer its [self.] calls as arguments. *)

(** [return float(self.value()) / self._max_int * self._value_range] *)
Definition value_body (self_value : DoubleSlider -> result Q)
    (self : DoubleSlider) : result Q :=
  x <- self_value self ;;
  m <- getattr (_max_int self) ;;
  q <- truediv x (inject_Z m) ;;
  r <- _value_range self ;;
  Ok (q * r)%Q.

(** [self.setValue(int(value / self._value_range * self._max_int))] *)
Definition setValue_body (self_setValue : DoubleSlider -> Z -> result DoubleSlider)
    (self : DoubleSlider) (value : Q) : result DoubleSlider :=
  r <- _value_range self ;;
  q <- truediv value r ;;
  m <- getattr (_max_int self) ;;
  self_setValue self (py_int (q * inject_Z m)%Q).

(** [old_value = self.value(); self._min_value = minimum;
     self._max_value = maximum; self.setValue(old_value)] *)
Definition setRange_body (self_value : DoubleSlider -> result Q)
    (self_setValue : DoubleSlider -> Q -> result DoubleSlider)
    (self : DoubleSlider) (minimum maximum : Q) : result DoubleSlider :=
  old_value <- self_value self ;;
  self_setValue (set_max_value (set_min_value self minimum) maximum) old_value.

(** [self.setRange(value, self._max_value)] *)
Definition setMinimum_body
    (self_setRange : DoubleSlider -> Q -> Q -> result DoubleSlider)
    (self : DoubleSlider) (value : Q) : result DoubleSlider :=
  hi <- getattr (_max_value self) ;;
  self_setRange self value hi.

(** [self.setRange(self._min_value, value)] *)
Definition setMaximum_body
    (self_setRange : DoubleSlider -> Q -> Q -> result DoubleSlider)
    (self : DoubleSlider) (value : Q) : result DoubleSlider :=
  lo <- getattr (_min_value self) ;;
  self_setRange self lo value.

(** [return (self.value() - self._min_value) / self._value_range] *)
Definition proportion_body (self_value : DoubleSlider -> result Q)
    (self : DoubleSlider) : result Q :=
  v <- self_value self ;;
  lo <- getattr (_min_value self) ;;
  r <- _value_range self ;;
  truediv (v - lo)%Q r.

(** *** The class

    On a [DoubleSlider] instance every [self.value()], [self.setValue(..)],
    [self.setRange(..)], [self.setMinimum(..)] and [self.setMaximum(..)]
    is answered by the method of [DoubleSlider] itself: the class
    overrides all five.  [limit] bounds how deep method calls may nest;
    a call made at the bound raises [RecursionError], as the interpreter
    does at its recursion limit. *)

Fixpoint value (limit : nat) (self : DoubleSlider) : result Q :=
  match limit with
  | O => Raise "RecursionError"
  | S d => value_body (value d) self
  end.

Fixpoint setValue (limit : nat) (self : DoubleSlider) (v : Q) : result DoubleSlider :=
  match limit with
  | O => Raise "RecursionError"
  | S d => setValue_body (fun s k => setValue d s (inject_Z k)) self v
  end.

Definition setRange (limit : nat) (self : DoubleSlider) (minimum maximum : Q)
    : result DoubleSlider :=
  match limit with
  | O => Raise "RecursionError"
  | S d => setRange_body (value d) (setValue d) self minimum maximum
  end.

Definition setMinimum (limit : nat) (self : DoubleSlider) (v : Q) : result DoubleSlider :=
  match limit with
  | O => Raise "RecursionError"
  | S d => setMinimum_body (setRange d) self v
  end.

Definition setMaximum (limit : nat) (self : DoubleSlider) (v : Q) : result DoubleSlider :=
  match limit with
  | O => Raise "RecursionError"
  | S d => setMaximum_body (setRange d) self v
  end.

Definition proportion (limit : nat) (self : DoubleSlider) : result Q :=
  match limit with
  | O => Raise "RecursionError"
  | S d => proportion_body (value d) self
  end.

(** [DoubleSlider()]: the base initialiser, then the statements of
    [__init__] in order. *)
Definition __init__ (limit : nat) : result DoubleSlider :=
  match limit with
  | O => Raise "RecursionError"
  | S d =>
      let self := {| qslider := QSlider_init; _max_int := None;
                     _min_value := None; _max_value := None |} in
      self <- setMinimum d self 0 ;;
      let self := set_max_int self 10000 in
      m <- getattr (_max_int self) ;;
      self <- setMaximum d self (inject_Z m) ;;
      Ok (set_max_value (set_min_value self 0) 100)
  end.

(** The state [__init__] is written to reach, with the handle at [raw]. *)
Definition at_position (raw : Z) (lo hi : Q) : DoubleSlider :=
  {| qslider := {| q_minimum := 0; q_maximum := 10000; q_value := raw |};
     _max_int := Some 10000%Z; _min_value := Some lo; _max_value := Some hi |}.

End Slider.

(** ** gui_elements.py: [Group] *)

Module Groups.

Import Messaging.

(** A toolkit object handed in as an argument: which object it is, the
    truth value Python gives it in [if obj:], and whether the toolkit
    already records a parent for it (which decides what [addLayout]
    does with a layout). *)
Record qobject := mk_qobject {
  handle : nat;
  truth : bool;
  has_parent : bool
}.

(** What the widget container holds, in insertion order. *)
Inductive item :=
| LayoutItem (o : qobject)
| WidgetItem (o : qobject).

(** The part of a [Group] that [add_layout], [add_widget], [set_title]
    and [set_label] read or write: the title of the group box, the text
    of the interior label, the content of [_widget_container], and the
    prefix [_insert] computed once by [__init__]. *)
Record Group := mk_Group {
  title : string;
  label_text : string;
  _widget_container : list item;
  _insert : string
}.

(** A record sent to the logger: level and text. *)
Definition log_record := (string * string)%type.

(** What a call leaves behind: the group, the records logged, and the
    returned sentinel. *)
Record outcome := mk_outcome {
  self_after : Group;
  logged : list log_record;
  returned : sentinel
}.

(** Truth value of an argument that is [None] or a toolkit object. *)
Definition truthy_obj (a : option qobject) : bool :=
  match a with
  | None => false
  | Some o => truth o
  end.

(** Truth value of an argument that is [None] or a [str]. *)
Definition truthy_str (a : option string) : bool :=
  match a with
  | None => false
  | Some s => negb (String.eqb s "")
  end.

(** [a == ''] for an argument that is [None] or a [str]. *)
Definition eq_empty (a : option string) : bool :=
  match a with
  | None => false
  | Some s => String.eqb s ""
  end.

(** Whether an item of the container is the widget, or the layout, [o]. *)
Definition is_widget (o : qobject) (i : item) : bool :=
  match i with
  | WidgetItem o' => Nat.eqb (handle o') (handle o)
  | LayoutItem _ => false
  end.

Definition is_layout (o : qobject) (i : item) : bool :=
  match i with
  | LayoutItem o' => Nat.eqb (handle o') (handle o)
  | WidgetItem _ => false
  end.

(** The toolkit's [addLayout] on a box layout: a layout that already
    has a parent, as every layout of the container has, is refused
    (with a warning on the console, and no exception); any other layout
    becomes the last item. *)
Definition addLayout (g : Group) (o : qobject) : Group :=
  if has_parent o || existsb (is_layout o) (_widget_container g) then g
  else
    {| title := title g; label_text := label_text g;
       _widget_container := _widget_container g ++ [LayoutItem o];
       _insert := _insert g |}.

(** The toolkit's [addWidget] on a box layout: a widget that is already
    in the layout is taken out of it first; the widget becomes the last
    item. *)
Definition addWidget (g : Group) (o : qobject) : Group :=
  {| title := title g; label_text := label_text g;
     _widget_container :=
       filter (fun i => negb (is_widget o i)) (_widget_container g)
       ++ [WidgetItem o];
     _insert := _insert g |}.

Definition setTitle (g : Group) (s : string) : Group :=
  {| title := s; label_text := label_text g;
     _widget_container := _widget_container g; _insert := _insert g |}.

Definition setText (g : Group) (s : string) : Group :=
  {| title := title g; label_text := s;
     _widget_container := _widget_container g; _insert := _insert g |}.

(** The [else] branch shared by the four methods: format the message
    with [_insert], log it as an error, return [Failure(msg)]. *)
Definition fail_with (self : Group) (text : string) : result outcome :=
  let msg := _insert self ++ text in
  Ok {| self_after := self; logged := [("ERROR", msg)];
        returned := Failure (Some msg) |}.

Definition succeed (self : Group) : result outcome :=
  Ok {| self_after := self; logged := []; returned := Success None |}.

(** [if layout: self._widget_container.addLayout(layout); return Success()]
    and the [else] branch.  The test passes only for an object, so the
    [None] case under it is never taken. *)
Definition add_layout (self : Group) (layout : option qobject) : result outcome :=
  if truthy_obj layout then
    match layout with
    | Some o => succeed (addLayout self o)
    | None => Raise "TypeError"
    end
  else fail_with self "add_layout(): layout Argument missing".

Definition add_widget (self : Group) (widget : option qobject) : result outcome :=
  if truthy_obj widget then
    match widget with
    | Some o => succeed (addWidget self o)
    | None => Raise "TypeError"
    end
  else fail_with self "add_widget(): widget Argument missing".

(** [if title: self.setTitle(title); return Success()] and the [else]
    branch. *)
Definition set_title (self : Group) (title : option string) : result outcome :=
  if truthy_str title then
    match title with
    | Some s => succeed (setTitle self s)
    | None => Raise "TypeError"
    end
  else fail_with self "set_title(): title Argument missing".

(** [if label or label == '': self.label.setText(label); return Success()]
    and the [else] branch. *)
Definition set_label (self : Group) (label : option string) : result outcome :=
  if truthy_str label || eq_empty label then
    match label with
    | Some s => succeed (setText self s)
    | None => Raise "TypeError"
    end
  else fail_with self "set_label(): label Argument missing".

End Groups.

(** ** The formulas of the specification, for comparison *)

Module Spec.

(** [raw_position / resolution * (max_value - min_value) + min_value] *)
Definition value (raw resolution : Z) (min_value max_value : Q) : Q :=
  (inject_Z raw / inject_Z resolution * (max_value - min_value) + min_value)%Q.

(** Rounding to the nearest integer (halves go up; the inputs used
    below are not halves). *)
Definition round (x : Q) : Z := Qfloor (x + (1 # 2))%Q.

(** [round((value - min_value) / (max_value - min_value) * resolution)],
    clamped into [[0, resolution]]. *)
Definition raw_position (resolution : Z) (min_value max_value v : Q) : Z :=
  Z.max 0 (Z.min resolution
    (round ((v - min_value) / (max_value - min_value) * inject_Z resolution)%Q)).

End Spec.

(** Whether a call ended by raising the exception class named [name]. *)
Definition signals {A : Type} (name : string) (r : result A) : bool :=
  match r with
  | Ok _ => false
  | Raise e => String.eqb e name
  end.

(** What the group methods report. *)
Definition reports_failure (r : result Groups.outcome) (g : Groups.Group)
    (text : string) : Prop :=
  exists o, r = Ok o
    /\ Groups.self_after o = g
    /\ Groups.returned o = Messaging.Failure (Some (Groups._insert g ++ text))
    /\ Messaging.truthy (Groups.returned o) = false
    /\ Messaging.message (Groups.returned o) = Some (Groups._insert g ++ text)
    /\ Groups.logged o = [("ERROR", Groups._insert g ++ text)].

Definition reports_success (r : result Groups.outcome) (g' : Groups.Group) : Prop :=
  exists o, r = Ok o
    /\ Groups.self_after o = g'
    /\ Groups.returned o = Messaging.Success None
    /\ Messaging.truthy (Groups.returned o) = true
    /\ Groups.logged o = [].

(** ** messaging.py: [Logger] and [ColorHandler] *)

Module Logging.

(** The characters the module writes by escape: ['\n'] and ['\x1b']. *)
Definition nl : string := String (ascii_of_nat 10) EmptyString.
Definition esc : string := String (ascii_of_nat 27) EmptyString.

Fixpoint spaces (n : nat) : string :=
  match n with
  | O => ""
  | S k => " " ++ spaces k
  end.

(** The format specifications [{0:>w}] and [{:<w}] applied to a string. *)
Definition rjust (w : nat) (s : string) : string := spaces (w - String.length s) ++ s.
Definition ljust (w : nat) (s : string) : string := s ++ spaces (w - String.length s).

(** The levels of [logging]. *)
Definition DEBUG : Z := 10.
Definition INFO : Z := 20.
Definition WARNING : Z := 30.
Definition ERROR : Z := 40.
Definition CRITICAL : Z := 50.

(** *** [Logger.format_msg] *)

(** What [msg_list] can be bound to: [None] (the default), a [str], or a
    list of [str]. *)
Inductive msg_arg :=
| MsgNone
| MsgStr (s : string)
| MsgList (l : list string).

(** The items [str.join] draws from its argument: the characters of a
    [str], the elements of a list; [None] is not iterable. *)
Definition join_items (a : msg_arg) : result (list string) :=
  match a with
  | MsgNone => Raise "TypeError"
  | MsgStr s => Ok (map (fun c => String c EmptyString) (list_ascii_of_string s))
  | MsgList l => Ok l
  end.

Definition truthy_msg (a : msg_arg) : bool :=
  match a with
  | MsgNone => false
  | MsgStr s => negb (String.eqb s "")
  | MsgList l => negb (Nat.eqb (List.length l) 0)
  end.

Definition new_line_break (msg_type : string) : string :=
  if String.eqb msg_type "warning" then nl ++ rjust 19 " "
  else if String.eqb msg_type "error" then nl ++ rjust 17 " "
  else nl ++ rjust 16 " ".

(** [msg += fmt.format(part)] under [if part:]. *)
Definition add_part (msg : string) (part : option string)
    (fmt : string -> string) : string :=
  match part with
  | Some s => if negb (String.eqb s "") then msg ++ fmt s else msg
  | None => msg
  end.

(** The dotted name [format_msg] puts on the first line. *)
Definition qualified (_module _class _method _property : option string) : string :=
  let msg := "" in
  let msg := add_part msg _module (fun s => s) in
  let msg := add_part msg _class (fun s => "." ++ s) in
  let msg := add_part msg _method (fun s => "." ++ s ++ "()") in
  let msg := add_part msg _property (fun s => "." ++ s) in
  msg.

(** [format_msg].  The local [_msg_list] replaces a falsy [msg_list] by
    [[]], but the last statement joins [msg_list] itself. *)
Definition format_msg (_module _class _method _property : option string)
    (msg_list : msg_arg) (msg_type : string) : result string :=
  let _msg_list := if truthy_msg msg_list then msg_list else MsgList [] in
  let brk := new_line_break msg_type in
  let msg := qualified _module _class _method _property in
  let msg := msg ++ brk in
  items <- join_items msg_list ;;
  Ok (msg ++ String.concat brk items).

(** *** The formatters [Logger.__init__] and [show_level] install

    ["%(levelname)s: {:<10}%(message)s".format('')] and
    ["{:<4}%(message)s".format('')], filled in with a record's level
    name and message. *)
Definition format_with_level (levelname message : string) : string :=
  levelname ++ ": " ++ ljust 10 "" ++ message.

Definition format_without_level (message : string) : string :=
  ljust 4 "" ++ message.

(** *** [Logger.set_debug_level] *)

(** What [level] can be bound to. *)
Inductive level_arg :=
| LvInt (z : Z)
| LvBool (b : bool)
| LvFloat (q : Q)
| LvStr (s : string)
| LvNone.

(** [type(level) != int]: a [bool] is not of type [int]. *)
Definition type_is_not_int (a : level_arg) : bool :=
  match a with
  | LvInt _ => false
  | _ => true
  end.

(** [level == n] for an integer literal [n]. *)
Definition eq_int (a : level_arg) (n : Z) : bool :=
  match a with
  | LvInt z => (z =? n)%Z
  | LvBool b => (Z.b2z b =? n)%Z
  | LvFloat q => Qeq_bool q (inject_Z n)
  | LvStr _ => false
  | LvNone => false
  end.

(** [set_debug_level]: the threshold of the logger after the call and
    the lines printed, given the threshold before. *)
Definition set_debug_level (threshold : Z) (level : level_arg) : Z * list string :=
  let printed :=
    if type_is_not_int level
    then ["level must be of type (int) with range 0-4"] else [] in
  if eq_int level 4 then (CRITICAL, printed)
  else if eq_int level 3 then (INFO, printed)
  else if eq_int level 2 then (WARNING, printed)
  else if eq_int level 1 then (ERROR, printed)
  else if eq_int level 0 then (DEBUG, printed)
  else (threshold, (printed ++ ["level Not supported"])%list).

(** *** [ColorHandler] *)

Definition color_map : list (string * Z) :=
  [("black", 0); ("red", 1); ("green", 2); ("yellow", 3);
   ("blue", 4); ("magenta", 5); ("cyan", 6); ("white", 7)]%Z.

(** An entry of [level_map]: background, foreground, bold. *)
Definition style := (option string * string * bool)%type.
Definition level_map_t := list (Z * style).

(** The class attribute [level_map]. *)
Definition level_map : level_map_t :=
  [(DEBUG, (None, "magenta", false));
   (INFO, (None, "green", false));
   (WARNING, (None, "yellow", false));
   (ERROR, (None, "red", false));
   (CRITICAL, (Some "red", "white", true))].

Definition csi : string := esc ++ "[".
Definition reset : string := esc ++ "[0m".

(** Dictionary lookup: [key in d] and [d[key]] in one. *)
Fixpoint lookup_color (key : string) (d : list (string * Z)) : option Z :=
  match d with
  | [] => None
  | (k, v) :: rest => if String.eqb k key then Some v else lookup_color key rest
  end.

Fixpoint lookup_level (key : Z) (d : level_map_t) : option style :=
  match d with
  | [] => None
  | (k, v) :: rest => if (k =? key)%Z then Some v else lookup_level key rest
  end.

(** [str(n)] for an integer. *)
Definition str_of_int (n : Z) : string := NilZero.string_of_int (Z.to_int n).

(** The table [update_color_scheme] assigns, by [scheme] and [os.name]. *)
Definition scheme_map (scheme : Z) (os_name : string) : level_map_t :=
  if (scheme =? 0)%Z then
    if String.eqb os_name "nt" then
      [(DEBUG, (None, "magenta", true));
       (INFO, (None, "green", false));
       (WARNING, (None, "yellow", true));
       (ERROR, (None, "red", true));
       (CRITICAL, (Some "red", "white", true))]
    else
      [(DEBUG, (None, "magenta", false));
       (INFO, (None, "green", false));
       (WARNING, (None, "yellow", false));
       (ERROR, (None, "red", false));
       (CRITICAL, (Some "red", "white", true))]
  else if (scheme =? 1)%Z then
    if String.eqb os_name "nt" then
      [(DEBUG, (None, "magenta", true));
       (INFO, (None, "cyan", false));
       (WARNING, (None, "yellow", true));
       (ERROR, (None, "red", true));
       (CRITICAL, (Some "red", "white", true))]
    else
      [(DEBUG, (None, "magenta", false));
       (INFO, (None, "cyan", false));
       (WARNING, (None, "yellow", false));
       (ERROR, (None, "red", false));
       (CRITICAL, (Some "red", "white", true))]
  else if (scheme =? 2)%Z then
    if String.eqb os_name "nt" then
      [(DEBUG, (None, "magenta", true));
       (INFO, (None, "white", false));
       (WARNING, (None, "yellow", true));
       (ERROR, (None, "red", true));
       (CRITICAL, (Some "red", "cyan", true))]
    else
      [(DEBUG, (None, "magenta", false));
       (INFO, (None, "cyan", false));
       (WARNING, (None, "yellow", false));
       (ERROR, (None, "red", false));
       (CRITICAL, (Some "red", "white", true))]
  else
    if String.eqb os_name "nt" then
      [(DEBUG, (None, "magenta", true));
       (INFO, (None, "green", false));
       (WARNING, (None, "yellow", true));
       (ERROR, (None, "red", true));
       (CRITICAL, (Some "red", "white", true))]
    else
      [(DEBUG, (None, "magenta", false));
       (INFO, (None, "green", false));
       (WARNING, (None, "yellow", false));
       (ERROR, (None, "red", false));
       (CRITICAL, (Some "red", "white", true))].

(** The list [params] that [colorize] builds for one entry. *)
Definition params_of (st : style) : list string :=
  let '(bg, fg, bold) := st in
  let params := [] in
  let params :=
    match bg with
    | Some b =>
        match lookup_color b color_map with
        | Some n => (params ++ [str_of_int (n + 40)])%list
        | None => params
        end
    | None => params
    end in
  let params :=
    match lookup_color fg color_map with
    | Some n => (params ++ [str_of_int (n + 30)])%list
    | None => params
    end in
  if bold then (params ++ ["1"])%list else params.

Definition colorize (lm : level_map_t) (message : string) (levelno : Z) : string :=
  match lookup_level levelno lm with
  | Some st =>
      match params_of st with
      | [] => message
      | params => csi ++ String.concat ";" params ++ "m" ++ message ++ reset
      end
  | None => message
  end.

(** [message.split('\n', 1)]: one part, or the text before the first
    newline and the text after it. *)
Fixpoint split_first_line (s : string) : list string :=
  match s with
  | EmptyString => [""]
  | String c rest =>
      if Ascii.eqb c (ascii_of_nat 10) then [""; rest]
      else match split_first_line rest with
           | p :: ps => String c p :: ps
           | [] => [String c ""]
           end
  end.

(** [ColorHandler.format], from the text the formatter produced. *)
Definition handler_format (is_tty : bool) (lm : level_map_t)
    (message : string) (levelno : Z) : string :=
  if is_tty then
    match split_first_line message with
    | p :: ps => String.concat nl (colorize lm p levelno :: ps)
    | [] => message
    end
  else message.

End Logging.

(** ** Notions used in the statements about the logger *)

Fixpoint has_newline (s : string) : bool :=
  match s with
  | EmptyString => false
  | String c rest => Ascii.eqb c (ascii_of_nat 10) || has_newline rest
  end.

(** What one part of the dotted name contributes to the first line:
    nothing when it is [None] or the empty string, its formatted text
    otherwise. *)
Definition shown (part : option string) (fmt : string -> string) : string :=
  match part with
  | Some s => if String.eqb s "" then "" else fmt s
  | None => ""
  end.

(** The suffix that marks bold in an escape sequence, on the platform
    where the schemes make DEBUG, WARNING and ERROR bold. *)
Definition bold_on_nt (os_name : string) : string :=
  if String.eqb os_name "nt" then ";1" else "".

Definition standard_levels : list Z :=
  [Logging.DEBUG; Logging.INFO; Logging.WARNING; Logging.ERROR; Logging.CRITICAL].

(** The threshold [set_debug_level] documents for each of 0..4. *)
Definition documented_threshold (n : Z) : Z :=
  if (n =? 0)%Z then Logging.DEBUG
  else if (n =? 1)%Z then Logging.ERROR
  else if (n =? 2)%Z then Logging.WARNING
  else if (n =? 3)%Z then Logging.INFO
  else Logging.CRITICAL.

(** ** messaging.py: what the sentinels inherit from [int] *)

Module SentinelOps.

Import Messaging.

(** What a [__str__] method may hand back. *)
Inductive pyobj :=
| PyStr (s : string)
| PySentinel (x : sentinel).

(** [def __str__(self): return self], in both classes. *)
Definition __str__ (self : sentinel) : pyobj := PySentinel self.

(** The builtin [str(x)]: the result of [__str__], which has to be a
    [str]. *)
Definition str (x : sentinel) : result string :=
  match __str__ x with
  | PyStr s => Ok s
  | PySentinel _ => Raise "TypeError"
  end.

(** [a == b] and [a == n]: neither class defines [__eq__], so the
    integers are compared. *)
Definition eq (a b : sentinel) : bool := (int_value a =? int_value b)%Z.
Definition eq_int (a : sentinel) (n : Z) : bool := (int_value a =? n)%Z.

(** [sum(results)]: integer addition from 0, left to right. *)
Definition sum (results : list sentinel) : Z :=
  fold_left (fun acc x => (acc + int_value x)%Z) results 0%Z.

(** The sentinel a call site builds for an outcome. *)
Definition build (ok : bool) (message : option string) : sentinel :=
  if ok then Success message else Failure message.

End SentinelOps.

(** ** gui_elements.py: [Group.__init__] and [collapse_widgets] *)

Module GroupBox.

Import Groups.

(** [Group.__init__], as far as the attributes of [Groups.Group] go:
    [_insert] from the module and class names, the title set only when
    it is truthy (a group box starts with the empty title), the label
    text ([QLabel(label)] or [QLabel("")]), an empty container. *)
Definition __init__ (module_name class_name : string)
    (title label : option string) : Group :=
  {| Groups.title := if truthy_str title
                     then match title with Some s => s | None => "" end
                     else "";
     label_text := if truthy_str label
                   then match label with Some s => s | None => "" end
                   else "";
     _widget_container := [];
     _insert := module_name ++ "." ++ class_name ++ "." |}.

(** The collapsing part of the state: whether the widget container is
    shown, whether the toggle button is checked, and how often the
    height has been fixed anew. *)
Record panel := mk_panel {
  container_visible : bool;
  toggle_checked : bool;
  height_fixes : nat
}.

Definition setVisible (p : panel) (b : bool) : panel :=
  {| container_visible := b; toggle_checked := toggle_checked p;
     height_fixes := height_fixes p |}.

Definition setFixedHeight (p : panel) : panel :=
  {| container_visible := container_visible p; toggle_checked := toggle_checked p;
     height_fixes := S (height_fixes p) |}.

(** [collapse_widgets] is connected to the button's [toggled] signal,
    and the button is checkable: [setChecked(b)] on a button in the
    other state changes it and calls the slot with [b] before it
    returns; on a button already in state [b] it does nothing.
    [limit] bounds the nesting of calls, as for the slider. *)
Fixpoint collapse_widgets (limit : nat) (p : panel) (state : bool) : result panel :=
  match limit with
  | O => Raise "RecursionError"
  | S d =>
      let setChecked (p : panel) (b : bool) : result panel :=
        if Bool.eqb (toggle_checked p) b then Ok p
        else collapse_widgets d
               {| container_visible := container_visible p; toggle_checked := b;
                  height_fixes := height_fixes p |} b in
      p <- (if negb state
            then setChecked (setVisible p false) false
            else setChecked (setVisible p true) true) ;;
      Ok (setFixedHeight p)
  end.

(** A click on the toggle button: the checked state flips, which calls
    the slot. *)
Definition click (limit : nat) (p : panel) : result panel :=
  let b := negb (toggle_checked p) in
  collapse_widgets limit
    {| container_visible := container_visible p; toggle_checked := b;
       height_fixes := height_fixes p |} b.

(** The panel [__init__] leaves: the button unchecked, the container
    shown or not as [init_visible] says, the height fixed once. *)
Definition init_panel (init_visible : bool) : panel :=
  {| container_visible := init_visible; toggle_checked := false; height_fixes := 1 |}.

(** A caller that hands a list of arguments to one method, one call
    after the other, and collects what was returned and logged. *)
Fixpoint call_each (method : Group -> option qobject -> result outcome)
    (self : Group) (args : list (option qobject))
    : result (Group * list Messaging.sentinel * list log_record) :=
  match args with
  | [] => Ok (self, [], [])
  | a :: rest =>
      o <- method self a ;;
      r <- call_each method (self_after o) rest ;;
      let '(g, rets, logs) := r in
      Ok (g, returned o :: rets, (logged o ++ logs)%list)
  end.

(** The arguments a method accepts: the objects with a true truth value. *)
Fixpoint accepted (args : list (option qobject)) : list qobject :=
  match args with
  | [] => []
  | Some o :: rest => if truth o then o :: accepted rest else accepted rest
  | None :: rest => accepted rest
  end.

End GroupBox.

(** ** gui_elements.py: [GuiElements.multi_input_dialog] *)

Module Dialog.

(** The types [data['type']] is compared with. *)
Inductive pytype := TStr | TFloat | TInt | TList.

Section Toolkit.

(** The Python values handed in (their inner structure is not looked
    at by the method), the objects of the toolkit, and the state of the
    toolkit. *)
Variables (pyval obj world : Type).

(** What the interpreter and the toolkit decide: the truth value of a
    value and of a toolkit object, [v == <type>], the items of a [for]
    over a value, [str(v)], [a in b], [b.index(a)], and every toolkit
    constructor or method, which returns an object or raises. *)
Variable truthy : pyval -> bool.
Variable obj_truthy : world -> obj -> bool.
Variable is_type : pyval -> pytype -> bool.
Variable iterate : pyval -> result (list pyval).
Variable str_of : pyval -> result string.
Variable contains : pyval -> pyval -> result bool.
Variable index_of : pyval -> pyval -> result pyval.
Variable slider_obj : Slider.DoubleSlider -> obj.

(** An argument of a toolkit call. *)
Inductive arg :=
| V (v : pyval)
| O (o : obj)
| S_ (s : string)
| NoneArg
| Lambda (callback : pyval)
| BoundClose (o : obj).

Variable call : string -> list arg -> world -> result (obj * world).

(** A [dict] with [str] keys. *)
Definition dict := list (string * pyval).

Fixpoint lookup (key : string) (d : dict) : option pyval :=
  match d with
  | [] => None
  | (k, v) :: rest => if String.eqb k key then Some v else lookup key rest
  end.

Definition has_key (key : string) (d : dict) : bool :=
  match lookup key d with
  | Some _ => true
  | None => false
  end.

(** Computations in the state of the toolkit that may raise. *)
Definition M (A : Type) : Type := world -> result (A * world).

Definition ret {A : Type} (a : A) : M A := fun w => Ok (a, w).
Definition raise {A : Type} (e : exn) : M A := fun _ => Raise e.
Definition lift {A : Type} (r : result A) : M A :=
  fun w => match r with Ok a => Ok (a, w) | Raise e => Raise e end.
Definition mbind {A B : Type} (m : M A) (k : A -> M B) : M B :=
  fun w => match m w with
           | Ok (a, w') => k a w'
           | Raise e => Raise e
           end.

(** [data[key]]: [None] is not subscriptable, a missing key is a
    [KeyError]. *)
Definition subscript (data : option dict) (key : string) : M pyval :=
  match data with
  | None => raise "TypeError"
  | Some d =>
      match lookup key d with
      | Some v => ret v
      | None => raise "KeyError"
      end
  end.

Definition when (b : bool) (m : M unit) : M unit :=
  if b then m else ret tt.

Definition call_ (name : string) (args : list arg) : M unit :=
  mbind (call name args) (fun _ => ret tt).

(** [for list_item in items: item.addItem(str(list_item))] *)
Fixpoint add_items (item : obj) (items : list pyval) : M unit :=
  match items with
  | [] => ret tt
  | x :: rest =>
      mbind (lift (str_of x)) (fun s =>
      mbind (call_ "addItem" [O item; S_ s]) (fun _ =>
      add_items item rest))
  end.

(** The block under [if item:], for an item that is an object. *)
Definition fill_item (d : dict) (ty : pyval) (item : obj) : M unit :=
  mbind (when (is_type ty TFloat || is_type ty TInt)
           (when (has_key "min" d || has_key "max" d)
              (mbind (when (has_key "min" d)
                        (mbind (subscript (Some d) "min") (fun v =>
                         call_ "setMinimum" [O item; V v])))
                 (fun _ =>
                  when (has_key "max" d)
                    (mbind (subscript (Some d) "max") (fun v =>
                     call_ "setMaximum" [O item; V v])))))) (fun _ =>
  mbind (when (has_key "items" d && is_type ty TList)
           (mbind (subscript (Some d) "items") (fun items =>
            mbind (lift (iterate items)) (fun l =>
            add_items item l)))) (fun _ =>
  mbind (when (has_key "default" d)
           (if is_type ty TStr then
              mbind (subscript (Some d) "default") (fun v =>
              call_ "setText" [O item; V v])
            else if is_type ty TFloat || is_type ty TInt then
              mbind (subscript (Some d) "default") (fun v =>
              call_ "setValue" [O item; V v])
            else if is_type ty TList then
              mbind (subscript (Some d) "default") (fun v =>
              mbind (subscript (Some d) "items") (fun items =>
              mbind (lift (contains v items)) (fun found =>
              when found
                (mbind (subscript (Some d) "items") (fun items' =>
                 mbind (subscript (Some d) "default") (fun v' =>
                 mbind (lift (index_of v' items')) (fun i =>
                 call_ "setCurrentIndex" [O item; V i])))))))
            else ret tt)) (fun _ =>
  when (has_key "help" d)
    (mbind (subscript (Some d) "help") (fun v =>
     call_ "setToolTip" [O item; V v]))))).

(** The chain that creates the item for [data['type']]; [DoubleSlider()]
    is the constructor of this module, run with the nesting bound
    [limit]. *)
Definition make_item (limit : nat) (ty : pyval) : M (option obj) :=
  if is_type ty TStr then
    mbind (call "QLineEdit" []) (fun o => ret (Some o))
  else if is_type ty TFloat then
    mbind (lift (Slider.__init__ limit)) (fun s => ret (Some (slider_obj s)))
  else if is_type ty TInt then
    mbind (call "QSlider" []) (fun o => ret (Some o))
  else if is_type ty TList then
    mbind (call "QComboBox" []) (fun o => ret (Some o))
  else ret None.

Definition item_arg (item : option obj) : arg :=
  match item with
  | Some o => O o
  | None => NoneArg
  end.

(** [multi_input_dialog]: the widget returned and, when the block under
    [if 'type' in data:] ran, the value assigned to [widget.item]. *)
Definition multi_input_dialog (limit : nat)
    (parent title header : pyval) (data : option dict)
    (yes_label no_label yes_callback no_callback : pyval)
    : M (obj * option (option obj)) :=
  mbind (call "QWidget" [V parent]) (fun widget =>
  mbind (call "QVBoxLayout" []) (fun layout =>
  mbind (call "QLabel" [V header]) (fun header_widget =>
  mbind (call_ "addWidget" [O layout; O header_widget]) (fun _ =>
  mbind (call "QHBoxLayout" []) (fun hbox =>
  mbind (subscript data "label") (fun label_text =>
  mbind (call "QLabel" [V label_text]) (fun label =>
  mbind (match data with
         | Some d =>
             if has_key "type" d then
               mbind (subscript data "type") (fun ty =>
               mbind (make_item limit ty) (fun item =>
               mbind (match item with
                      | Some o =>
                          fun w => when (obj_truthy w o) (fill_item d ty o) w
                      | None => ret tt
                      end) (fun _ =>
               mbind (call_ "addWidget" [O hbox; O label]) (fun _ =>
               mbind (call_ "addWidget" [O hbox; item_arg item]) (fun _ =>
               mbind (call_ "addLayout" [O layout; O hbox]) (fun _ =>
               ret (Some item)))))))
             else ret None
         | None => raise "TypeError"
         end) (fun item_attr =>
  mbind (call "QHBoxLayout" []) (fun hbox_buttons =>
  mbind (call "QPushButton" [V yes_label]) (fun yes =>
  mbind (call "QPushButton" [V no_label]) (fun no =>
  mbind (when (truthy no_callback)
           (call_ "connect" [O no; Lambda no_callback])) (fun _ =>
  mbind (call_ "connect" [O no; BoundClose widget]) (fun _ =>
  mbind (call_ "connect" [O yes; Lambda yes_callback]) (fun _ =>
  mbind (call_ "addWidget" [O hbox_buttons; O yes]) (fun _ =>
  mbind (call_ "addWidget" [O hbox_buttons; O no]) (fun _ =>
  mbind (call_ "addLayout" [O layout; O hbox_buttons]) (fun _ =>
  mbind (call_ "setLayout" [O widget; O layout]) (fun _ =>
  ret (widget, item_attr))))))))))))))))))).

End Toolkit.

End Dialog.

(** A stand-in toolkit for examples: values are strings or types,
    objects are numbered in the order of their creation, every call
    returns the next object. *)
Module SampleToolkit.

Inductive value :=
| Str (s : string)
| Type_ (t : Dialog.pytype)
| Num (z : Z)
| NoValue.

Definition truthy (v : value) : bool :=
  match v with
  | Str s => negb (String.eqb s "")
  | Type_ _ => true
  | Num z => negb (z =? 0)%Z
  | NoValue => false
  end.

Definition is_type (v : value) (t : Dialog.pytype) : bool :=
  match v, t with
  | Type_ Dialog.TStr, Dialog.TStr => true
  | Type_ Dialog.TFloat, Dialog.TFloat => true
  | Type_ Dialog.TInt, Dialog.TInt => true
  | Type_ Dialog.TList, Dialog.TList => true
  | _, _ => false
  end.

Definition call (name : string) (args : list (Dialog.arg value nat)) (w : nat)
    : result (nat * nat) :=
  Ok (w, S w).

Definition run (limit : nat) (data : option (Dialog.dict value))
    : result ((nat * option (option nat)) * nat) :=
  Dialog.multi_input_dialog value nat nat truthy (fun _ _ => true) is_type
    (fun _ => Raise "TypeError") (fun _ => Raise "TypeError")
    (fun _ _ => Raise "TypeError") (fun _ _ => Raise "TypeError")
    (fun _ => 0%nat) call limit
    NoValue (Str "Multiple Input Dialog Box") (Str "header") data
    (Str "Yes") (Str "No") NoValue NoValue 0%nat.

End SampleToolkit.

(** ** messaging.py: from [Logger.error] to the stream *)

Module Console.

Import Logging.

(** The logger as the methods of the module leave it: its threshold,
    the answers [isEnabledFor] has given so far (the library keeps them
    per level in [_cache]), the level of its colour handler, which of
    the two formatters the handler has, the handler's colour table, and
    whether the handler's stream is a terminal. *)
Record logger := mk_logger {
  threshold : Z;
  cache : list (Z * bool);
  handler_level : Z;
  shows_level : bool;
  table : level_map_t;
  is_tty : bool
}.

(** [Logger()], without a file name: threshold [DEBUG], nothing
    remembered, the handler at level [DEBUG] with the level-showing
    formatter and the class table. *)
Definition Logger (tty : bool) : logger :=
  {| threshold := DEBUG; cache := []; handler_level := DEBUG; shows_level := true;
     table := level_map; is_tty := tty |}.

(** [set_debug_level] reaches the threshold through [setLevel], which
    clears the remembered answers of the loggers registered with the
    logging manager only; a [Logger] made by calling the class is not
    among them, so its answers stay. *)
Definition set_debug_level (lg : logger) (level : level_arg) : logger * list string :=
  let '(t, printed) := Logging.set_debug_level (threshold lg) level in
  ({| threshold := t; cache := cache lg; handler_level := handler_level lg;
      shows_level := shows_level lg;
      table := table lg; is_tty := is_tty lg |}, printed).

Fixpoint remembered (levelno : Z) (c : list (Z * bool)) : option bool :=
  match c with
  | [] => None
  | (k, b) :: rest => if (k =? levelno)%Z then Some b else remembered levelno rest
  end.

(** [isEnabledFor(levelno)]: the remembered answer if there is one;
    otherwise no for a level that is not above the manager's [disable]
    (0 unless someone calls [logging.disable]), and else whether the
    level is not below the threshold. *)
Definition isEnabledFor (lg : logger) (levelno : Z) : bool :=
  match remembered levelno (cache lg) with
  | Some b => b
  | None => if (levelno <=? 0)%Z then false else (threshold lg <=? levelno)%Z
  end.


(** [logging.getLevelName]. *)
Definition levelname (levelno : Z) : string :=
  if (levelno =? CRITICAL)%Z then "CRITICAL"
  else if (levelno =? ERROR)%Z then "ERROR"
  else if (levelno =? WARNING)%Z then "WARNING"
  else if (levelno =? INFO)%Z then "INFO"
  else if (levelno =? DEBUG)%Z then "DEBUG"
  else if (levelno =? 0)%Z then "NOTSET"
  else "Level " ++ str_of_int levelno.

(** [ColorHandler.emit]: what is written to the stream, in order.  Both
    branches on [is_tty] write the formatted text; the terminator
    follows. *)
Definition emit (lg : logger) (levelno : Z) (msg : string) : list string :=
  let formatted :=
    if shows_level lg then format_with_level (levelname levelno) msg
    else format_without_level msg in
  let message := handler_format (is_tty lg) (table lg) formatted levelno in
  if negb (is_tty lg) then [message; nl] else [message; nl].

(** A record of level [levelno] handed to the logger: it is emitted
    when the logger is enabled for the level and the level is not below
    the level of the handler. *)
Definition log (lg : logger) (levelno : Z) (msg : string) : list string :=
  if isEnabledFor lg levelno && (handler_level lg <=? levelno)%Z
  then emit lg levelno msg else [].

Definition error (lg : logger) (msg : string) : list string := log lg ERROR msg.


End Console.

(** ** Sample inputs *)

(** A group with the prefix [__init__] computes for the class itself,
    holding one widget. *)
Definition sample_group : Groups.Group :=
  {| Groups.title := "Shelf"; Groups.label_text := "tools";
     Groups._widget_container := [Groups.WidgetItem (Groups.mk_qobject 1 true true)];
     Groups._insert := "gui_elements.Group." |}.

(** * Properties *)

(** ** The sentinels *)

Lemma truthy_is_nonzero_hook (m : option string) :
  Messaging.truthy (Messaging.Success m) = Messaging.__nonzero__ (Messaging.Success m)
  /\ Messaging.truthy (Messaging.Failure m) = Messaging.__nonzero__ (Messaging.Failure m).
Proof. split; reflexivity. Qed.

(** C8.  For every optional message, a [Success] is truthy and a
    [Failure] is falsy, which is exactly the variant that was
    constructed, and assigning [message] afterwards does not change it;
    either variant built with the message "ok" has [message] equal to
    "ok"; a [Failure] built with no message is built without an error
    and its [message] is [None]. *)
Theorem C8_sentinel_truth_and_message :
  forall m m' : option string,
    Messaging.truthy (Messaging.Success m) = true
    /\ Messaging.truthy (Messaging.Failure m) = false
    /\ Messaging.truthy (Messaging.Success m) = Messaging.is_success (Messaging.Success m)
    /\ Messaging.truthy (Messaging.Failure m) = Messaging.is_success (Messaging.Failure m)
    /\ Messaging.truthy (Messaging.set_message (Messaging.Success m) m') = true
    /\ Messaging.truthy (Messaging.set_message (Messaging.Failure m) m') = false
    /\ Messaging.message (Messaging.Success m) = m
    /\ Messaging.message (Messaging.Failure m) = m
    /\ Messaging.message (Messaging.Success (Some "ok")) = Some "ok"
    /\ Messaging.message (Messaging.Failure (Some "ok")) = Some "ok"
    /\ Messaging.message (Messaging.Failure None) = None.
Proof.
  intros m m'. repeat split.
Qed.

(** ** The group box *)

Lemma truthy_str_false (t : option string) :
  Groups.truthy_str t = false -> t = None \/ t = Some "".
Proof.
  destruct t as [s|]; simpl; [|now left].
  destruct (String.eqb_spec s ""); [subst; now right | discriminate].
Qed.

Lemma fail_with_reports (g : Groups.Group) (text : string) :
  reports_failure (Groups.fail_with g text) g text.
Proof.
  unfold reports_failure, Groups.fail_with. eexists. repeat split.
Qed.

Lemma succeed_reports (g : Groups.Group) :
  reports_success (Groups.succeed g) g.
Proof.
  unfold reports_success, Groups.succeed. eexists. repeat split.
Qed.

Lemma add_layout_missing (g : Groups.Group) (a : option Groups.qobject) :
  Groups.truthy_obj a = false ->
  Groups.add_layout g a
  = Groups.fail_with g "add_layout(): layout Argument missing".
Proof.
  intros Ha. unfold Groups.add_layout. rewrite Ha. reflexivity.
Qed.

Lemma add_widget_missing (g : Groups.Group) (a : option Groups.qobject) :
  Groups.truthy_obj a = false ->
  Groups.add_widget g a
  = Groups.fail_with g "add_widget(): widget Argument missing".
Proof.
  intros Ha. unfold Groups.add_widget. rewrite Ha. reflexivity.
Qed.

Lemma set_title_missing (g : Groups.Group) (t : option string) :
  Groups.truthy_str t = false ->
  Groups.set_title g t
  = Groups.fail_with g "set_title(): title Argument missing".
Proof.
  intros Ht. unfold Groups.set_title. rewrite Ht. reflexivity.
Qed.

Lemma set_title_present (g : Groups.Group) (s : string) :
  s <> "" -> Groups.set_title g (Some s) = Groups.succeed (Groups.setTitle g s).
Proof.
  intros Hs. unfold Groups.set_title. simpl.
  destruct (String.eqb_spec s ""); [contradiction | reflexivity].
Qed.

(** [set_label] accepts every string, the empty one included, and
    refuses only [None]. *)
Lemma set_label_any_string (g : Groups.Group) (s : string) :
  Groups.set_label g (Some s) = Groups.succeed (Groups.setText g s).
Proof.
  unfold Groups.set_label. simpl. destruct (String.eqb s ""); reflexivity.
Qed.

(** Taking a widget out of a container that does not hold it changes
    nothing. *)
Lemma filter_absent_widget (o : Groups.qobject) (l : list Groups.item) :
  existsb (Groups.is_widget o) l = false ->
  filter (fun i => negb (Groups.is_widget o i)) l = l.
Proof.
  induction l as [|i l IH]; simpl; [reflexivity|].
  intros H. apply Bool.orb_false_iff in H. destruct H as [Hi Hl].
  rewrite Hi. simpl. now rewrite IH.
Qed.



(** C10.  The empty string is a missing argument for [set_title], which
    returns a [Failure] and leaves the title (and the rest of the group)
    as it was, but a valid one for [set_label], which returns a [Success]
    and makes the label text empty. *)
Theorem C10_empty_string_asymmetry :
  forall g : Groups.Group,
    reports_failure (Groups.set_title g (Some "")) g "set_title(): title Argument missing"
    /\ reports_success (Groups.set_label g (Some "")) (Groups.setText g "")
    /\ Groups.label_text (Groups.setText g "") = ""
    /\ Groups.title (Groups.setText g "") = Groups.title g.
Proof.
  intros g. split; [|split; [|split]]; try reflexivity.
  - rewrite (set_title_missing g (Some "") eq_refl). apply fail_with_reports.
  - rewrite set_label_any_string. apply succeed_reports.
Qed.

(** ** The slider: calls through [self] *)

(** [value] opens with [self.value()], which is [value] again: no
    nesting bound lets the call return. *)
Lemma value_raises (limit : nat) (self : Slider.DoubleSlider) :
  Slider.value limit self = Raise "RecursionError".
Proof.
  induction limit as [|d IH]; simpl; [reflexivity|].
  unfold Slider.value_body. rewrite IH. reflexivity.
Qed.

(** [setValue] ends with [self.setValue(..)], which is [setValue] again:
    whatever the state and the argument, the call ends in an exception. *)
Lemma setValue_raises (limit : nat) (self : Slider.DoubleSlider) :
  forall v, returns (Slider.setValue limit self v) = false.
Proof.
  induction limit as [|d IH]; intros v; simpl; [reflexivity|].
  unfold Slider.setValue_body.
  destruct (Slider._value_range self) as [r|e]; simpl; [|reflexivity].
  destruct (truediv v r) as [q|e]; simpl; [|reflexivity].
  destruct (getattr (Slider._max_int self)) as [m|e]; simpl; [|reflexivity].
  apply IH.
Qed.

Lemma value_range_set (self : Slider.DoubleSlider) (lo hi : Q) :
  Slider._min_value self = Some lo -> Slider._max_value self = Some hi ->
  Slider._value_range self = Ok (hi - lo)%Q.
Proof.
  intros Hlo Hhi. unfold Slider._value_range. rewrite Hhi, Hlo. reflexivity.
Qed.

Lemma truediv_zero (x y : Q) : (y == 0)%Q -> truediv x y = Raise "ZeroDivisionError".
Proof.
  intros Hy. unfold truediv.
  destruct (Qeq_bool y 0) eqn:E; [reflexivity|].
  apply Qeq_bool_neq in E. contradiction.
Qed.

Lemma truediv_nonzero (x y : Q) : ~ (y == 0)%Q -> truediv x y = Ok (x / y)%Q.
Proof.
  intros Hy. unfold truediv.
  destruct (Qeq_bool y 0) eqn:E; [|reflexivity].
  apply Qeq_bool_eq in E. contradiction.
Qed.

(** On the state [__init__] is written to reach, with a range of
    non-zero width, [setValue(0)] asks for position 0 and calls itself
    with that 0 again: the exception is the one of the nesting bound.
    (For another argument the integer passed on grows with every call,
    and the interpreter can fail converting it to a float before the
    bound is reached.) *)
Lemma setValue_zero_recursion (limit : nat) (raw : Z) (lo hi : Q) :
  ~ (hi == lo)%Q ->
  Slider.setValue limit (Slider.at_position raw lo hi) 0 = Raise "RecursionError".
Proof.
  intros Hne.
  assert (Hw : ~ (hi - lo == 0)%Q).
  { intros H. apply Hne. apply Qplus_inj_r with (z := (- lo)%Q).
    rewrite Qplus_opp_r. exact H. }
  induction limit as [|d IH]; [reflexivity|].
  cbn [Slider.setValue]. unfold Slider.setValue_body.
  rewrite (value_range_set (Slider.at_position raw lo hi) lo hi eq_refl eq_refl).
  cbn [bind].
  rewrite (truediv_nonzero 0 (hi - lo) Hw). cbn [bind].
  cbn [Slider.at_position Slider._max_int getattr bind].
  replace (py_int (0 / (hi - lo) * inject_Z 10000)) with 0%Z; [exact IH|].
  unfold py_int, Qdiv, Qmult, Qnum. rewrite Z.mul_0_l. reflexivity.
Qed.

(** With a range of zero width the division comes first and fails. *)
Lemma setValue_zero_width (d : nat) (self : Slider.DoubleSlider) (lo hi v : Q) :
  Slider._min_value self = Some lo -> Slider._max_value self = Some hi ->
  (hi == lo)%Q ->
  Slider.setValue (S d) self v = Raise "ZeroDivisionError".
Proof.
  intros Hlo Hhi Heq. simpl. unfold Slider.setValue_body.
  rewrite (value_range_set self lo hi Hlo Hhi). simpl.
  rewrite truediv_zero; [reflexivity|].
  rewrite Heq. apply Qplus_opp_r.
Qed.

Lemma setRange_raises (limit : nat) (self : Slider.DoubleSlider) (lo hi : Q) :
  Slider.setRange limit self lo hi = Raise "RecursionError".
Proof.
  destruct limit as [|d]; simpl; [reflexivity|].
  unfold Slider.setRange_body. rewrite value_raises. reflexivity.
Qed.

Lemma proportion_raises (limit : nat) (self : Slider.DoubleSlider) :
  Slider.proportion limit self = Raise "RecursionError".
Proof.
  destruct limit as [|d]; simpl; [reflexivity|].
  unfold Slider.proportion_body. rewrite value_raises. reflexivity.
Qed.

(** [__init__] calls [self.setMinimum(0)] first, which is the override:
    it reads [_max_value] before any attribute has been assigned. *)
Lemma init_raises (d : nat) : Slider.__init__ (S (S d)) = Raise "AttributeError".
Proof. reflexivity. Qed.

(** ** The slider: the arithmetic of the bodies

    What [value] and [setValue] compute, the numbers being exact, once
    the inner call is answered by the base class (the handle position,
    the bounded store). *)

Lemma value_body_on_base (raw : Z) (lo hi : Q) :
  Slider.value_body Slider.QSlider_value (Slider.at_position raw lo hi)
  = Ok (inject_Z raw / inject_Z 10000 * (hi - lo))%Q.
Proof. reflexivity. Qed.

(** The product has no [+ min_value]: half way through [50, 150] it is
    50, where the formula of the specification gives 100. *)
Lemma value_body_on_base_omits_minimum :
  exists y, Slider.value_body Slider.QSlider_value (Slider.at_position 5000 50 150) = Ok y
    /\ (y == 50)%Q /\ (Spec.value 5000 10000 50 150 == 100)%Q.
Proof.
  eexists. split; [reflexivity|]. split; reflexivity.
Qed.

Lemma value_body_on_base_monotone (raw1 raw2 : Z) (lo hi : Q) :
  (raw1 <= raw2)%Z -> (lo <= hi)%Q ->
  exists y1 y2,
    Slider.value_body Slider.QSlider_value (Slider.at_position raw1 lo hi) = Ok y1
    /\ Slider.value_body Slider.QSlider_value (Slider.at_position raw2 lo hi) = Ok y2
    /\ (y1 <= y2)%Q.
Proof.
  intros Hraw Hle. do 2 eexists. split; [apply value_body_on_base|].
  split; [apply value_body_on_base|].
  apply Qmult_le_compat_r.
  - apply Qmult_le_compat_r; [|discriminate].
    rewrite <- Zle_Qle. exact Hraw.
  - rewrite <- (Qplus_opp_r lo). apply Qplus_le_compat; [exact Hle | apply Qle_refl].
Qed.

(** [int(..)] drops the fraction where the specification rounds: for
    0.006 in [0, 100] the body asks for position 0, the formula of the
    specification for position 1. *)
Lemma setValue_body_truncates :
  Slider.setValue_body Slider.QSlider_setValue (Slider.at_position 7 0 100) (6 # 1000)
  = Ok (Slider.at_position 0 0 100)
  /\ Spec.raw_position 10000 0 100 (6 # 1000) = 1%Z.
Proof. split; reflexivity. Qed.

(** ** The slider: the claims *)

(** C1.  [value()] does not return
    [raw_position / resolution * (max_value - min_value) + min_value]:
    in every state, whatever the handle position and the bounds, and for
    every nesting bound, the call ends in [RecursionError]. *)
Theorem C1_value_ends_in_RecursionError :
  forall (limit : nat) (self : Slider.DoubleSlider),
    Slider.value limit self = Raise "RecursionError"
    /\ returns (Slider.value limit self) = false.
Proof.
  intros limit self. rewrite value_raises. split; reflexivity.
Qed.

(** C2, as stated, fails: with the range [5, 5] the call [setValue(7)]
    ends in [ZeroDivisionError], not in a [DomainError]; nor do
    [proportion()] and [setRange(5, 5)] end in a [DomainError]. *)
Lemma C2_zero_width_range_counterexample :
  Slider.setValue 1000 (Slider.at_position 0 5 5) 7 = Raise "ZeroDivisionError"
  /\ signals "DomainError" (Slider.setValue 1000 (Slider.at_position 0 5 5) 7) = false
  /\ signals "DomainError" (Slider.proportion 1000 (Slider.at_position 0 5 5)) = false
  /\ signals "DomainError" (Slider.setRange 1000 (Slider.at_position 0 0 100) 5 5) = false.
Proof.
  rewrite proportion_raises, setRange_raises. repeat split.
Qed.

(** C2, amended.  Whenever [max_value] and [min_value] are equal finite
    floats, [setValue(v)] ends in [ZeroDivisionError] for every finite
    float [v]: the width of the range is then zero, the division by it
    is not guarded, and the fault reaches the caller. *)
Theorem C2_zero_width_range_divides_by_zero :
  forall (d : nat) (self : Slider.DoubleSlider) (lo hi v : Q),
    Slider._min_value self = Some lo ->
    Slider._max_value self = Some hi ->
    finite_float lo = true ->
    finite_float hi = true ->
    finite_float v = true ->
    (hi == lo)%Q ->
    Slider.setValue (S d) self v = Raise "ZeroDivisionError".
Proof.
  intros d self lo hi v Hlo Hhi _ _ _ Heq.
  exact (setValue_zero_width d self lo hi v Hlo Hhi Heq).
Qed.

Lemma C2_zero_width_range_witness :
  finite_float 5 = true /\ finite_float (15 # 2) = true
  /\ Slider.setValue 1000 (Slider.at_position 2500 5 5) (15 # 2)
     = Raise "ZeroDivisionError".
Proof.
  split; [reflexivity|]. split; [reflexivity|].
  apply (C2_zero_width_range_divides_by_zero 999 (Slider.at_position 2500 5 5) 5 5 (15 # 2));
    reflexivity.
Defined.

(** C3.  [setValue(v)] does not store any position: in every state and
    for every [v] the call ends in an exception; on the range [0, 100],
    from any handle position, [setValue(0.0)] ends in [RecursionError]
    and the handle is not moved to position 0. *)
Theorem C3_setValue_ends_in_exception :
  forall (limit : nat) (self : Slider.DoubleSlider) (raw : Z) (v : Q),
    returns (Slider.setValue limit self v) = false
    /\ Slider.setValue limit (Slider.at_position raw 0 100) 0 = Raise "RecursionError".
Proof.
  intros limit self raw v. split; [apply setValue_raises|].
  apply setValue_zero_recursion. discriminate.
Qed.

(** C4.  [setRange(minimum, maximum)] neither replaces the bounds nor
    preserves the value: it opens with [self.value()], so for every
    state, every pair of bounds and every nesting bound the call ends in
    [RecursionError]; so it does from position 5000 of [0, 100] when the
    range is set to [0, 200]. *)
Theorem C4_setRange_ends_in_RecursionError :
  forall (limit : nat) (self : Slider.DoubleSlider) (minimum maximum : Q),
    Slider.setRange limit self minimum maximum = Raise "RecursionError"
    /\ Slider.setRange limit (Slider.at_position 5000 0 100) 0 200
       = Raise "RecursionError".
Proof.
  intros limit self minimum maximum. split; apply setRange_raises.
Qed.

(** C5.  [setValue(v)] followed by [value()] yields no number at all:
    the first call already ends in an exception, in every state and for
    every [v]; and so does the second one on its own. *)
Theorem C5_round_trip_yields_no_value :
  forall (limit : nat) (self : Slider.DoubleSlider) (v : Q),
    returns (self' <- Slider.setValue limit self v ;; Slider.value limit self') = false
    /\ returns (Slider.value limit self) = false.
Proof.
  intros limit self v. split.
  - pose proof (setValue_raises limit self v) as H.
    destruct (Slider.setValue limit self v); [discriminate H | reflexivity].
  - rewrite value_raises. reflexivity.
Qed.

(** C6.  [proportion()] yields no number in [0, 1]: it opens with
    [self.value()], so in every state and for every nesting bound the
    call ends in [RecursionError]. *)
Theorem C6_proportion_ends_in_RecursionError :
  forall (limit : nat) (self : Slider.DoubleSlider),
    Slider.proportion limit self = Raise "RecursionError".
Proof.
  intros limit self. apply proportion_raises.
Qed.

(** C7.  [value()] yields no numbers to compare: at any two handle
    positions of any range the call ends in [RecursionError]. *)
Theorem C7_value_at_two_positions :
  forall (limit : nat) (raw1 raw2 : Z) (lo hi : Q),
    Slider.value limit (Slider.at_position raw1 lo hi) = Raise "RecursionError"
    /\ Slider.value limit (Slider.at_position raw2 lo hi) = Raise "RecursionError".
Proof.
  intros limit raw1 raw2 lo hi. split; apply value_raises.
Qed.

(** ** The logger: [format_msg] *)

Lemma append_assoc (a b c : string) : (a ++ b) ++ c = a ++ (b ++ c).
Proof.
  induction a as [|ch a IH]; simpl; [reflexivity | now rewrite IH].
Qed.

Lemma append_empty_r (a : string) : a ++ "" = a.
Proof.
  induction a as [|ch a IH]; simpl; [reflexivity | now rewrite IH].
Qed.

Lemma length_append (a b : string) :
  String.length (a ++ b) = (String.length a + String.length b)%nat.
Proof.
  induction a as [|ch a IH]; simpl; [reflexivity | now rewrite IH].
Qed.

Lemma length_spaces (n : nat) : String.length (Logging.spaces n) = n.
Proof.
  induction n as [|n IH]; simpl; [reflexivity | now rewrite IH].
Qed.

(** Joining with a separator, after one leading separator, puts the
    separator in front of every item. *)
Lemma concat_leading_separator (sep : string) (l : list string) :
  l <> [] ->
  sep ++ String.concat sep l = String.concat "" (map (fun m => sep ++ m) l).
Proof.
  induction l as [|a l IH]; intros Hne; [contradiction|].
  destruct l as [|b l].
  - simpl. reflexivity.
  - change (String.concat sep (a :: b :: l)) with (a ++ sep ++ String.concat sep (b :: l)).
    rewrite IH by discriminate.
    change (map (fun m => sep ++ m) (a :: b :: l))
      with ((sep ++ a) :: map (fun m => sep ++ m) (b :: l)).
    remember (map (fun m => sep ++ m) (b :: l)) as rest eqn:E.
    destruct rest as [|r rest]; [discriminate E|].
    change (String.concat "" ((sep ++ a) :: r :: rest))
      with ((sep ++ a) ++ "" ++ String.concat "" (r :: rest)).
    simpl ("" ++ _). now rewrite append_assoc.
Qed.

(** X1.  [format_msg] called without [msg_list] (the default [None])
    ends in [TypeError], whatever the other arguments: the empty list
    prepared for that case is not the one that is joined.  With an empty
    list it returns the dotted name followed by one line break. *)
Theorem format_msg_without_entries :
  forall (_module _class _method _property : option string) (msg_type : string),
    Logging.format_msg _module _class _method _property Logging.MsgNone msg_type
    = Raise "TypeError"
    /\ Logging.format_msg _module _class _method _property (Logging.MsgList []) msg_type
       = Ok (Logging.qualified _module _class _method _property
             ++ Logging.new_line_break msg_type).
Proof.
  intros. split; [reflexivity|].
  unfold Logging.format_msg. simpl. now rewrite append_assoc, append_empty_r.
Qed.

Lemma format_msg_of_entries (_module _class _method _property : option string)
    (l : list string) (msg_type : string) :
  l <> [] ->
  Logging.format_msg _module _class _method _property (Logging.MsgList l) msg_type
  = Ok (Logging.qualified _module _class _method _property
        ++ String.concat ""
             (map (fun m => Logging.new_line_break msg_type ++ m) l)).
Proof.
  intros Hne. unfold Logging.format_msg. simpl.
  rewrite append_assoc. now rewrite (concat_leading_separator _ l Hne).
Qed.

Lemma qualified_by_parts (_module _class _method _property : option string) :
  Logging.qualified _module _class _method _property
  = shown _module (fun s => s)
    ++ shown _class (fun s => "." ++ s)
    ++ shown _method (fun s => "." ++ s ++ "()")
    ++ shown _property (fun s => "." ++ s).
Proof.
  unfold Logging.qualified, Logging.add_part, shown.
  destruct _module as [m|]; [destruct (String.eqb m "")|];
    (destruct _class as [c|]; [destruct (String.eqb c "")|]);
    (destruct _method as [f|]; [destruct (String.eqb f "")|]);
    (destruct _property as [p|]; [destruct (String.eqb p "")|]);
    cbn [negb];
    repeat (progress (cbn [append]; rewrite ?append_assoc, ?append_empty_r));
    reflexivity.
Qed.

(** X2.  For a list with at least one entry, [format_msg] returns the
    dotted name followed by every entry on a line of its own, each
    behind the same line break and indentation.  The dotted name is
    made of the module, ".class", ".method()" and ".property", in this
    order, and each of the four that is [None] or empty leaves no
    trace, not even its dot. *)
Theorem format_msg_one_line_per_entry :
  forall (_module _class _method _property : option string)
         (l : list string) (msg_type : string),
    l <> [] ->
    Logging.format_msg _module _class _method _property (Logging.MsgList l) msg_type
    = Ok (shown _module (fun s => s)
          ++ shown _class (fun s => "." ++ s)
          ++ shown _method (fun s => "." ++ s ++ "()")
          ++ shown _property (fun s => "." ++ s)
          ++ String.concat ""
               (map (fun m => Logging.new_line_break msg_type ++ m) l)).
Proof.
  intros m c f p l ty Hne.
  rewrite (format_msg_of_entries m c f p l ty Hne), qualified_by_parts.
  now rewrite !append_assoc.
Qed.

Lemma format_msg_one_line_per_entry_witness :
  Logging.format_msg (Some "gui_elements") None (Some "set_title") (Some "")
    (Logging.MsgList ["title Argument missing"; "nothing was changed"]) "error"
  = Ok ("gui_elements.set_title()"
        ++ Logging.nl ++ "                 title Argument missing"
        ++ Logging.nl ++ "                 nothing was changed").
Proof.
  rewrite (format_msg_one_line_per_entry (Some "gui_elements") None
             (Some "set_title") (Some "")
             ["title Argument missing"; "nothing was changed"] "error");
    [reflexivity | discriminate].
Defined.

(** X3.  For the three documented message types, the entries that
    [format_msg] puts on their own lines start in the column where the
    level-showing formatter starts the message of the first line: each
    entry sits behind a line break and as many spaces as the prefix
    that formatter writes for the level of the same name is long. *)
Theorem format_msg_aligns_with_level_prefix :
  forall (_module _class _method _property : option string)
         (l : list string) (msg_type levelname : string),
    l <> [] ->
    In (msg_type, levelname)
       [("info", "INFO"); ("warning", "WARNING"); ("error", "ERROR")] ->
    Logging.format_msg _module _class _method _property (Logging.MsgList l) msg_type
    = Ok (Logging.qualified _module _class _method _property
          ++ String.concat ""
               (map (fun m =>
                       Logging.nl
                       ++ Logging.spaces
                            (String.length (Logging.format_with_level levelname ""))
                       ++ m) l)).
Proof.
  intros m c f p l ty lvl Hne Hin.
  rewrite (format_msg_of_entries m c f p l ty Hne). simpl in Hin.
  destruct Hin as [E|[E|[E|[]]]]; inversion E; subst; reflexivity.
Qed.

Lemma format_msg_aligns_with_level_prefix_witness :
  exists msg,
    Logging.format_msg (Some "gui_elements") (Some "Group") (Some "set_title") None
      (Logging.MsgList ["title Argument missing"]) "warning" = Ok msg
    /\ Logging.format_with_level "WARNING" msg
       = "WARNING:           gui_elements.Group.set_title()"
         ++ Logging.nl ++ "                   title Argument missing".
Proof.
  eexists. split.
  - apply (format_msg_aligns_with_level_prefix (Some "gui_elements") (Some "Group")
             (Some "set_title") None ["title Argument missing"] "warning" "WARNING");
      [discriminate | simpl; auto].
  - reflexivity.
Defined.

(** ** The logger: colours *)

Lemma lookup_level_not_standard (scheme : Z) (os_name : string) (lvl : Z) :
  ~ In lvl standard_levels ->
  Logging.lookup_level lvl (Logging.scheme_map scheme os_name) = None
  /\ Logging.lookup_level lvl Logging.level_map = None.
Proof.
  intros Hn.
  assert (H10 : (Logging.DEBUG =? lvl)%Z = false)
    by (apply Z.eqb_neq; intros E; apply Hn; simpl; auto).
  assert (H20 : (Logging.INFO =? lvl)%Z = false)
    by (apply Z.eqb_neq; intros E; apply Hn; simpl; auto).
  assert (H30 : (Logging.WARNING =? lvl)%Z = false)
    by (apply Z.eqb_neq; intros E; apply Hn; simpl; auto).
  assert (H40 : (Logging.ERROR =? lvl)%Z = false)
    by (apply Z.eqb_neq; intros E; apply Hn; simpl; auto).
  assert (H50 : (Logging.CRITICAL =? lvl)%Z = false)
    by (apply Z.eqb_neq; intros E; apply Hn; simpl; auto 6).
  split.
  - unfold Logging.scheme_map.
    destruct (scheme =? 0)%Z; [|destruct (scheme =? 1)%Z; [|destruct (scheme =? 2)%Z]];
      destruct (String.eqb os_name "nt"); cbn [Logging.lookup_level];
      rewrite H10, H20, H30, H40, H50; reflexivity.
  - unfold Logging.level_map. cbn [Logging.lookup_level].
    rewrite H10, H20, H30, H40, H50. reflexivity.
Qed.

(** The parts [split('\n', 1)] returns: the whole text when it has no
    newline, else the first line and what follows the first newline. *)
Lemma split_first_line_parts (s : string) :
  (Logging.split_first_line s = [s] /\ has_newline s = false)
  \/ exists a b, Logging.split_first_line s = [a; b]
       /\ s = a ++ Logging.nl ++ b /\ has_newline a = false.
Proof.
  induction s as [|c s IH]; simpl.
  - left. split; reflexivity.
  - destruct (Ascii.eqb_spec c (ascii_of_nat 10)) as [E|E].
    + right. exists "", s. subst c. repeat split.
    + simpl. destruct IH as [[H1 H2]|[a [b [H1 [H2 H3]]]]].
      * left. rewrite H1. split; [reflexivity | exact H2].
      * right. exists (String c a), b. rewrite H1. split; [reflexivity|].
        split.
        -- rewrite H2. reflexivity.
        -- simpl. destruct (Ascii.eqb_spec c (ascii_of_nat 10)); [contradiction | exact H3].
Qed.

(** X4.  Whatever scheme number and platform [update_color_scheme] is
    given, the five standard levels are always coloured and the colour
    of a severity does not move: ERROR is red, WARNING yellow, DEBUG
    magenta (bold on [nt] only), INFO is green, cyan or white and never
    bold, CRITICAL is bold white or cyan on a red background; the
    message itself sits unchanged between the escape sequence and the
    reset. *)
Theorem colorize_keeps_severity_colours :
  forall (scheme : Z) (os_name message : string),
    Logging.colorize (Logging.scheme_map scheme os_name) message Logging.ERROR
    = Logging.csi ++ "31" ++ bold_on_nt os_name ++ "m" ++ message ++ Logging.reset
    /\ Logging.colorize (Logging.scheme_map scheme os_name) message Logging.WARNING
       = Logging.csi ++ "33" ++ bold_on_nt os_name ++ "m" ++ message ++ Logging.reset
    /\ Logging.colorize (Logging.scheme_map scheme os_name) message Logging.DEBUG
       = Logging.csi ++ "35" ++ bold_on_nt os_name ++ "m" ++ message ++ Logging.reset
    /\ (exists fg, In fg ["32"; "36"; "37"]
        /\ Logging.colorize (Logging.scheme_map scheme os_name) message Logging.INFO
           = Logging.csi ++ fg ++ "m" ++ message ++ Logging.reset)
    /\ (exists fg, In fg ["37"; "36"]
        /\ Logging.colorize (Logging.scheme_map scheme os_name) message Logging.CRITICAL
           = Logging.csi ++ "41;" ++ fg ++ ";1m" ++ message ++ Logging.reset).
Proof.
  intros scheme os_name message.
  unfold Logging.scheme_map, bold_on_nt.
  destruct (scheme =? 0)%Z; [|destruct (scheme =? 1)%Z; [|destruct (scheme =? 2)%Z]];
    destruct (String.eqb os_name "nt");
    (split; [reflexivity|]); (split; [reflexivity|]); (split; [reflexivity|]);
    (split;
       first [ exists "32"; split; [simpl; auto | reflexivity]
             | exists "36"; split; [simpl; auto | reflexivity]
             | exists "37"; split; [simpl; auto | reflexivity] ]).
Qed.

(** X5.  A record whose level is not one of the five standard ones is
    never coloured: [colorize] returns the text as it is, under the
    class table and under every scheme, and [ColorHandler.format]
    returns it as it is on a terminal too, the split at the first
    newline and the join undoing each other. *)
Theorem custom_levels_are_left_uncoloured :
  forall (scheme : Z) (os_name message : string) (levelno : Z) (is_tty : bool),
    ~ In levelno standard_levels ->
    Logging.colorize (Logging.scheme_map scheme os_name) message levelno = message
    /\ Logging.colorize Logging.level_map message levelno = message
    /\ Logging.handler_format is_tty (Logging.scheme_map scheme os_name) message levelno
       = message
    /\ Logging.handler_format is_tty Logging.level_map message levelno = message.
Proof.
  intros scheme os_name message levelno is_tty Hn.
  destruct (lookup_level_not_standard scheme os_name levelno Hn) as [H1 H2].
  assert (C1 : forall m, Logging.colorize (Logging.scheme_map scheme os_name) m levelno = m)
    by (intros m; unfold Logging.colorize; now rewrite H1).
  assert (C2 : forall m, Logging.colorize Logging.level_map m levelno = m)
    by (intros m; unfold Logging.colorize; now rewrite H2).
  split; [apply C1|]. split; [apply C2|].
  unfold Logging.handler_format. destruct is_tty; [|split; reflexivity].
  destruct (split_first_line_parts message) as [[E _]|[a [b [E [Hm _]]]]];
    rewrite E, ?C1, ?C2; simpl.
  - split; reflexivity.
  - rewrite Hm. split; reflexivity.
Qed.

Lemma custom_levels_are_left_uncoloured_witness :
  Logging.handler_format true (Logging.scheme_map 1 "posix")
    ("trace: first" ++ Logging.nl ++ "second") 5
  = "trace: first" ++ Logging.nl ++ "second".
Proof.
  apply (custom_levels_are_left_uncoloured 1 "posix"
           ("trace: first" ++ Logging.nl ++ "second") 5 true).
  unfold standard_levels. simpl. intuition discriminate.
Defined.

(** X6.  On a terminal [ColorHandler.format] colours the first line
    only: the text is cut at its first newline, the part before it is
    what [colorize] receives, and the rest (the newline included) is
    appended as it is; not on a terminal, the text is returned
    unchanged. *)
Theorem handler_format_colours_first_line_only :
  forall (lm : Logging.level_map_t) (message : string) (levelno : Z),
    Logging.handler_format false lm message levelno = message
    /\ exists first rest,
         message = first ++ rest
         /\ has_newline first = false
         /\ (rest = "" \/ exists r, rest = Logging.nl ++ r)
         /\ Logging.handler_format true lm message levelno
            = Logging.colorize lm first levelno ++ rest.
Proof.
  intros lm message levelno. split; [reflexivity|].
  unfold Logging.handler_format.
  destruct (split_first_line_parts message) as [[E Hn]|[a [b [E [Hm Hn]]]]].
  - exists message, "". rewrite E. simpl.
    rewrite !append_empty_r. repeat split; auto.
  - exists a, (Logging.nl ++ b). rewrite E. simpl.
    repeat split; auto. right. now exists b.
Qed.

(** X7.  [update_color_scheme] has only three tables per platform: a
    scheme number other than 0, 1 or 2 selects the table of scheme 0;
    off [nt], scheme 2 selects the very table of scheme 1, and scheme 0
    the table the class starts with. *)
Theorem scheme_numbers_collapse :
  forall (scheme : Z) (os_name : string),
    (scheme <> 0 -> scheme <> 1 -> scheme <> 2 ->
       Logging.scheme_map scheme os_name = Logging.scheme_map 0 os_name)%Z
    /\ (os_name <> "nt" ->
          Logging.scheme_map 2 os_name = Logging.scheme_map 1 os_name
          /\ Logging.scheme_map 0 os_name = Logging.level_map).
Proof.
  intros scheme os_name. split.
  - intros H0 H1 H2. unfold Logging.scheme_map.
    apply Z.eqb_neq in H0, H1, H2. rewrite H0, H1, H2. reflexivity.
  - intros Hos. apply String.eqb_neq in Hos.
    unfold Logging.scheme_map. simpl. rewrite Hos. split; reflexivity.
Qed.

Lemma scheme_numbers_collapse_witness :
  Logging.scheme_map 7 "posix" = Logging.scheme_map 0 "posix"
  /\ Logging.scheme_map 2 "posix" = Logging.scheme_map 1 "posix"
  /\ Logging.scheme_map 0 "posix" = Logging.level_map.
Proof.
  destruct (scheme_numbers_collapse 7 "posix") as [H1 H2].
  split; [apply H1; discriminate | apply H2; discriminate].
Defined.

(** ** The logger: [set_debug_level] *)

Lemma eq_int_unique (a : Logging.level_arg) (n m : Z) :
  Logging.eq_int a n = true -> n <> m -> Logging.eq_int a m = false.
Proof.
  destruct a as [z|b|q|s|]; simpl; try discriminate.
  - intros H Hne. apply Z.eqb_eq in H. apply Z.eqb_neq. congruence.
  - intros H Hne. apply Z.eqb_eq in H. apply Z.eqb_neq. congruence.
  - intros H Hne. apply Qeq_bool_eq in H.
    destruct (Qeq_bool q (inject_Z m)) eqn:E; [|reflexivity].
    apply Qeq_bool_eq in E.
    exfalso. apply Hne. apply inject_Z_injective.
    rewrite <- H. exact E.
Qed.

(** X8.  [set_debug_level] with an [int]: for 0..4 the threshold
    becomes the one its docstring lists for that number (0 DEBUG,
    1 ERROR, 2 WARNING, 3 INFO, 4 CRITICAL) and nothing is printed, so a
    larger number does not mean a stricter threshold (1 is stricter
    than 2, and 2 than 3); for any other integer the threshold stays as
    it was and "level Not supported" is printed. *)
Theorem set_debug_level_on_integers :
  forall (threshold z : Z),
    ((0 <= z <= 4)%Z ->
       Logging.set_debug_level threshold (Logging.LvInt z)
       = (documented_threshold z, []))
    /\ ((z < 0 \/ 4 < z)%Z ->
       Logging.set_debug_level threshold (Logging.LvInt z)
       = (threshold, ["level Not supported"]))
    /\ (documented_threshold 3 < documented_threshold 2 < documented_threshold 1)%Z.
Proof.
  intros threshold z. split; [|split].
  - intros Hz.
    assert (z = 0 \/ z = 1 \/ z = 2 \/ z = 3 \/ z = 4)%Z as [E|[E|[E|[E|E]]]] by lia;
      subst z; reflexivity.
  - intros Hz. unfold Logging.set_debug_level. simpl.
    replace (z =? 4)%Z with false by (symmetry; apply Z.eqb_neq; lia).
    replace (z =? 3)%Z with false by (symmetry; apply Z.eqb_neq; lia).
    replace (z =? 2)%Z with false by (symmetry; apply Z.eqb_neq; lia).
    replace (z =? 1)%Z with false by (symmetry; apply Z.eqb_neq; lia).
    replace (z =? 0)%Z with false by (symmetry; apply Z.eqb_neq; lia).
    reflexivity.
  - unfold documented_threshold, Logging.INFO, Logging.WARNING, Logging.ERROR.
    simpl. lia.
Qed.

Lemma set_debug_level_on_integers_witness :
  Logging.set_debug_level Logging.DEBUG (Logging.LvInt 1) = (Logging.ERROR, [])
  /\ Logging.set_debug_level Logging.INFO (Logging.LvInt 5)
     = (Logging.INFO, ["level Not supported"]).
Proof.
  destruct (set_debug_level_on_integers Logging.DEBUG 1) as [H1 _].
  destruct (set_debug_level_on_integers Logging.INFO 5) as [_ [H2 _]].
  split; [apply H1; lia | apply H2; lia].
Defined.

(** X9.  [set_debug_level] with an argument that is not an [int] (a
    [bool], a [float], a [str], [None]) prints the complaint about the
    type and goes on: an argument equal to one of 0..4 (as [True] is to
    1 and [4.0] to 4) sets the threshold of that number all the same;
    any other leaves the threshold as it was and prints both
    messages. *)
Theorem set_debug_level_reports_type_but_goes_on :
  forall (threshold : Z) (a : Logging.level_arg),
    Logging.type_is_not_int a = true ->
    (forall n, (0 <= n <= 4)%Z -> Logging.eq_int a n = true ->
       Logging.set_debug_level threshold a
       = (documented_threshold n, ["level must be of type (int) with range 0-4"]))
    /\ ((forall n, (0 <= n <= 4)%Z -> Logging.eq_int a n = false) ->
       Logging.set_debug_level threshold a
       = (threshold, ["level must be of type (int) with range 0-4";
                      "level Not supported"])).
Proof.
  intros threshold a Ht. split.
  - intros n Hn He. unfold Logging.set_debug_level. rewrite Ht.
    assert (n = 0 \/ n = 1 \/ n = 2 \/ n = 3 \/ n = 4)%Z as [E|[E|[E|[E|E]]]] by lia;
      subst n;
      repeat match goal with
             | |- context [Logging.eq_int a ?m] =>
                 first [ rewrite He
                       | rewrite (eq_int_unique a _ m He) by discriminate ]
             end;
      reflexivity.
  - intros Hall. unfold Logging.set_debug_level. rewrite Ht.
    rewrite (Hall 4%Z), (Hall 3%Z), (Hall 2%Z), (Hall 1%Z), (Hall 0%Z) by lia.
    reflexivity.
Qed.

Lemma set_debug_level_reports_type_but_goes_on_witness :
  Logging.set_debug_level Logging.DEBUG (Logging.LvBool true)
  = (Logging.ERROR, ["level must be of type (int) with range 0-4"])
  /\ Logging.set_debug_level Logging.DEBUG (Logging.LvFloat 4)
     = (Logging.CRITICAL, ["level must be of type (int) with range 0-4"])
  /\ Logging.set_debug_level Logging.INFO Logging.LvNone
     = (Logging.INFO, ["level must be of type (int) with range 0-4";
                       "level Not supported"]).
Proof.
  destruct (set_debug_level_reports_type_but_goes_on Logging.DEBUG
              (Logging.LvBool true) eq_refl) as [H1 _].
  destruct (set_debug_level_reports_type_but_goes_on Logging.DEBUG
              (Logging.LvFloat 4) eq_refl) as [H2 _].
  destruct (set_debug_level_reports_type_but_goes_on Logging.INFO
              Logging.LvNone eq_refl) as [_ H3].
  split; [apply (H1 1%Z); [lia | reflexivity]|].
  split; [apply (H2 4%Z); [lia | reflexivity]|].
  apply H3. reflexivity.
Defined.

(** ** The sentinels as integers *)

(** X10.  [str(x)] of a sentinel ends in [TypeError], for either
    variant, with or without a message and after the message has been
    reassigned: [__str__] returns the sentinel itself, which is not a
    [str]. *)
Theorem str_of_sentinel_raises :
  forall (ok : bool) (m m' : option string),
    SentinelOps.str (SentinelOps.build ok m) = Raise "TypeError"
    /\ SentinelOps.str (Messaging.set_message (SentinelOps.build ok m) m')
       = Raise "TypeError".
Proof.
  intros ok m m'. split; reflexivity.
Qed.

Lemma sum_from (l : list Messaging.sentinel) (acc : Z) :
  fold_left (fun a x => (a + Messaging.int_value x)%Z) l acc
  = (acc + SentinelOps.sum l)%Z.
Proof.
  unfold SentinelOps.sum. revert acc.
  induction l as [|x l IH]; intros acc; simpl; [lia|].
  rewrite IH. rewrite (IH (Messaging.int_value x)). lia.
Qed.

(** X11.  Compared and added, the sentinels are the integers 1 and 0:
    two sentinels are equal exactly when they are the same variant,
    whatever their messages; a [Success] equals 1 and a [Failure] 0; and
    the sum of a list of outcomes is the number of successes in it. *)
Theorem sentinels_compare_and_add_as_integers :
  forall (ok1 ok2 : bool) (m1 m2 : option string) (l : list (bool * option string)),
    SentinelOps.eq (SentinelOps.build ok1 m1) (SentinelOps.build ok2 m2)
    = Bool.eqb ok1 ok2
    /\ SentinelOps.eq_int (SentinelOps.build ok1 m1) (Z.b2z ok1) = true
    /\ SentinelOps.sum (map (fun x => SentinelOps.build (fst x) (snd x)) l)
       = Z.of_nat (List.length (filter fst l)).
Proof.
  intros ok1 ok2 m1 m2 l. split; [|split].
  - destruct ok1, ok2; reflexivity.
  - destruct ok1; reflexivity.
  - induction l as [|[ok m] l IH]; [reflexivity|].
    unfold SentinelOps.sum. cbn [map fold_left fst snd].
    rewrite sum_from, IH. destruct ok; cbn [filter fst List.length].
    + change (Messaging.int_value (SentinelOps.build true m)) with 1%Z.
      rewrite Nat2Z.inj_succ. lia.
    + change (Messaging.int_value (SentinelOps.build false m)) with 0%Z. lia.
Qed.

(** ** The group box: more of its methods *)

(** X12.  [set_label] fails for [None] only: [None] gives a [Failure]
    with the message of the method and leaves the group as it was;
    every string, the empty one included, becomes the label text and
    gives a [Success], the title and the container staying as they
    were. *)
Theorem set_label_refuses_only_None :
  forall (g : Groups.Group) (s : string),
    reports_failure (Groups.set_label g None) g "set_label(): label Argument missing"
    /\ reports_success (Groups.set_label g (Some s)) (Groups.setText g s)
    /\ Groups.label_text (Groups.setText g s) = s
    /\ Groups.title (Groups.setText g s) = Groups.title g
    /\ Groups._widget_container (Groups.setText g s) = Groups._widget_container g.
Proof.
  intros g s. split; [apply fail_with_reports|].
  split; [rewrite set_label_any_string; apply succeed_reports|].
  repeat split.
Qed.

Lemma init_title (mod_name cls_name : string) (t label : option string) :
  Groups.title (GroupBox.__init__ mod_name cls_name t label)
  = match t with Some s => s | None => "" end.
Proof.
  destruct t as [s|]; [|reflexivity]. unfold GroupBox.__init__. simpl.
  destruct (String.eqb_spec s ""); [now subst | reflexivity].
Qed.

(** X13.  [set_title] cannot remove a title: the call always returns;
    given a non-empty string it makes that string the title, and given
    [None] or the empty string it leaves the group as it was; so a
    group whose title is not empty keeps a non-empty title.  [__init__]
    makes the title the string it is given (the empty title for
    [None]), so the title is empty only when [__init__] was given
    [None] or the empty string and no call has set one since. *)
Theorem set_title_never_empties_the_title :
  forall (g : Groups.Group) (t : option string),
    exists o,
      Groups.set_title g t = Ok o
      /\ (forall s, t = Some s -> s <> "" ->
            Groups.title (Groups.self_after o) = s
            /\ Groups.label_text (Groups.self_after o) = Groups.label_text g
            /\ Groups._widget_container (Groups.self_after o)
               = Groups._widget_container g)
      /\ (Groups.truthy_str t = false -> Groups.self_after o = g)
      /\ (Groups.title g <> "" -> Groups.title (Groups.self_after o) <> "")
      /\ (forall mod_name cls_name t0 label,
            Groups.title (GroupBox.__init__ mod_name cls_name t0 label)
            = match t0 with Some s => s | None => "" end
            /\ (Groups.title (GroupBox.__init__ mod_name cls_name t0 label) = ""
                <-> t0 = None \/ t0 = Some "")).
Proof.
  intros g t.
  assert (Hinit : forall mod_name cls_name t0 label,
            Groups.title (GroupBox.__init__ mod_name cls_name t0 label)
            = match t0 with Some s => s | None => "" end
            /\ (Groups.title (GroupBox.__init__ mod_name cls_name t0 label) = ""
                <-> t0 = None \/ t0 = Some "")).
  { intros mod_name cls_name t0 label. rewrite init_title. split; [reflexivity|].
    destruct t0 as [s|]; split; intros H.
    - right. now subst.
    - destruct H as [H|H]; [discriminate | now inversion H].
    - now left.
    - reflexivity. }
  destruct t as [s|].
  - destruct (String.eqb_spec s "") as [E|E].
    + subst s. eexists. split; [reflexivity|]. simpl.
      split; [intros s Hs Hne; inversion Hs; subst; contradiction|].
      split; [reflexivity|]. split; [auto | exact Hinit].
    + rewrite (set_title_present g s E). eexists. split; [reflexivity|]. simpl.
      split; [intros s' Hs _; inversion Hs; subst; repeat split|].
      split; [|split; [intros _; exact E | exact Hinit]].
      intros H. apply Bool.negb_false_iff in H. apply String.eqb_eq in H. contradiction.
  - eexists. split; [reflexivity|]. simpl.
    split; [intros s Hs; discriminate Hs|].
    split; [reflexivity|]. split; [auto | exact Hinit].
Qed.

Lemma call_each_add
    (method : Groups.Group -> option Groups.qobject -> result Groups.outcome)
    (mk : Groups.qobject -> Groups.item)
    (clash : Groups.qobject -> Groups.item -> bool)
    (admitted : Groups.qobject -> bool) (text : string) :
  (forall g0 o, Groups.truth o = true -> admitted o = true ->
     existsb (clash o) (Groups._widget_container g0) = false ->
     method g0 (Some o)
     = Groups.succeed
         {| Groups.title := Groups.title g0; Groups.label_text := Groups.label_text g0;
            Groups._widget_container := (Groups._widget_container g0 ++ [mk o])%list;
            Groups._insert := Groups._insert g0 |}) ->
  (forall g0 a, Groups.truthy_obj a = false -> method g0 a = Groups.fail_with g0 text) ->
  (forall o o', clash o (mk o') = Nat.eqb (Groups.handle o') (Groups.handle o)) ->
  forall (args : list (option Groups.qobject)) (g : Groups.Group),
    NoDup (map Groups.handle (GroupBox.accepted args)) ->
    (forall o, In o (GroupBox.accepted args) ->
       admitted o = true
       /\ existsb (clash o) (Groups._widget_container g) = false) ->
    exists g' rets logs,
      GroupBox.call_each method g args = Ok (g', rets, logs)
      /\ Groups._widget_container g'
         = (Groups._widget_container g ++ map mk (GroupBox.accepted args))%list
      /\ Groups.title g' = Groups.title g
      /\ Groups.label_text g' = Groups.label_text g
      /\ Groups._insert g' = Groups._insert g
      /\ map Messaging.truthy rets = map Groups.truthy_obj args
      /\ (List.length logs + List.length (GroupBox.accepted args))%nat
         = List.length args.
Proof.
  intros Hok Hfail Hclash.
  induction args as [|a args IH]; intros g Hnd Hfresh.
  - exists g, [], []. simpl. rewrite app_nil_r. repeat split.
  - destruct (Groups.truthy_obj a) eqn:Ha.
    + destruct a as [o|]; [|discriminate Ha]. simpl in Ha.
      cbn [GroupBox.accepted] in Hnd, Hfresh. rewrite Ha in Hnd, Hfresh.
      cbn [map] in Hnd. inversion Hnd as [|h hs Hnotin Hnd' E]; subst.
      destruct (Hfresh o (or_introl eq_refl)) as [Hadm Hfr].
      cbn [GroupBox.call_each]. rewrite (Hok g o Ha Hadm Hfr). unfold Groups.succeed.
      cbn [bind Groups.self_after].
      match goal with
      | |- context [GroupBox.call_each method ?g1 args] =>
          destruct (IH g1 Hnd') as [g' [rets [logs [E [Hc [Ht [Hl [Hi [Hr Hn]]]]]]]]]
      end.
      { intros o' Ho'. destruct (Hfresh o' (or_intror Ho')) as [Hadm' Hfr'].
        split; [exact Hadm'|].
        cbn [Groups._widget_container]. rewrite existsb_app, Hfr'.
        cbn [existsb orb]. rewrite Hclash, Bool.orb_false_r.
        apply Nat.eqb_neq. intros Heq. apply Hnotin. rewrite Heq.
        apply in_map. exact Ho'. }
      rewrite E. cbn [bind]. do 3 eexists. split; [reflexivity|].
      cbn [Groups._widget_container Groups.title Groups.label_text Groups._insert] in *.
      cbn [GroupBox.accepted]. rewrite Ha.
      repeat split; auto.
      * rewrite Hc. cbn [map]. now rewrite <- app_assoc.
      * cbn [map Groups.returned Groups.truthy_obj]. now rewrite Hr, Ha.
      * cbn [Groups.logged List.length app]. cbn [List.length]. lia.
    + assert (Hacc : GroupBox.accepted (a :: args) = GroupBox.accepted args).
      { destruct a as [o|]; [|reflexivity]. simpl in Ha. cbn [GroupBox.accepted].
        now rewrite Ha. }
      rewrite Hacc in Hnd, Hfresh.
      cbn [GroupBox.call_each]. rewrite (Hfail g a Ha). unfold Groups.fail_with.
      cbn [bind Groups.self_after].
      destruct (IH g Hnd Hfresh) as [g' [rets [logs [E [Hc [Ht [Hl [Hi [Hr Hn]]]]]]]]].
      rewrite E. cbn [bind]. do 3 eexists. split; [reflexivity|].
      rewrite Hacc. repeat split; auto.
      * cbn [map Groups.returned]. now rewrite Hr, Ha.
      * cbn [Groups.logged List.length app]. lia.
Qed.

(** Without distinctness the order of the calls is not the order of the
    container: a widget added a second time is moved to the end. *)
Lemma adding_a_widget_again_moves_it :
  exists g' rets logs,
    GroupBox.call_each Groups.add_widget
      (Groups.mk_Group "" "" [] "gui_elements.Group.")
      [Some (Groups.mk_qobject 1 true false); Some (Groups.mk_qobject 2 true false);
       Some (Groups.mk_qobject 3 true false); Some (Groups.mk_qobject 2 true true)]
    = Ok (g', rets, logs)
    /\ map (fun i => match i with
                     | Groups.WidgetItem o | Groups.LayoutItem o => Groups.handle o
                     end) (Groups._widget_container g')
       = [1; 3; 2]%nat.
Proof.
  do 3 eexists. split; reflexivity.
Qed.

(** X14.  Adding a list of distinct widgets that the container does not
    hold yet (or of distinct layouts that it does not hold and that
    have no parent yet), one call after the other: every call returns;
    the container ends up holding what it held before followed by the
    accepted arguments in the order of the calls; a rejected argument
    leaves no entry but exactly one error record; the sentinels
    returned are truthy exactly for the accepted arguments; title,
    label text and prefix are untouched. *)
Theorem adding_in_sequence_keeps_call_order :
  forall (g : Groups.Group) (args : list (option Groups.qobject)),
    NoDup (map Groups.handle (GroupBox.accepted args)) ->
    ((forall o, In o (GroupBox.accepted args) ->
        existsb (Groups.is_widget o) (Groups._widget_container g) = false) ->
     exists g' rets logs,
       GroupBox.call_each Groups.add_widget g args = Ok (g', rets, logs)
       /\ Groups._widget_container g'
          = (Groups._widget_container g
             ++ map Groups.WidgetItem (GroupBox.accepted args))%list
       /\ Groups.title g' = Groups.title g
       /\ Groups.label_text g' = Groups.label_text g
       /\ Groups._insert g' = Groups._insert g
       /\ map Messaging.truthy rets = map Groups.truthy_obj args
       /\ (List.length logs + List.length (GroupBox.accepted args))%nat
          = List.length args)
    /\ ((forall o, In o (GroupBox.accepted args) ->
         Groups.has_parent o = false
         /\ existsb (Groups.is_layout o) (Groups._widget_container g) = false) ->
       exists g' rets logs,
       GroupBox.call_each Groups.add_layout g args = Ok (g', rets, logs)
       /\ Groups._widget_container g'
          = (Groups._widget_container g
             ++ map Groups.LayoutItem (GroupBox.accepted args))%list
       /\ Groups.title g' = Groups.title g
       /\ Groups.label_text g' = Groups.label_text g
       /\ Groups._insert g' = Groups._insert g
       /\ map Messaging.truthy rets = map Groups.truthy_obj args
       /\ (List.length logs + List.length (GroupBox.accepted args))%nat
          = List.length args).
Proof.
  intros g args Hnd. split.
  - intros Hfresh.
    apply (call_each_add Groups.add_widget Groups.WidgetItem Groups.is_widget
             (fun _ => true) "add_widget(): widget Argument missing");
      [ | | | exact Hnd | ].
    + intros g0 o Ho _ Hfr. unfold Groups.add_widget. simpl. rewrite Ho.
      unfold Groups.addWidget. now rewrite (filter_absent_widget _ _ Hfr).
    + intros g0 a Ha. apply add_widget_missing. exact Ha.
    + reflexivity.
    + intros o Ho. split; [reflexivity | apply Hfresh; exact Ho].
  - intros Hfresh.
    apply (call_each_add Groups.add_layout Groups.LayoutItem Groups.is_layout
             (fun o => negb (Groups.has_parent o))
             "add_layout(): layout Argument missing");
      [ | | | exact Hnd | ].
    + intros g0 o Ho Hp Hfr. unfold Groups.add_layout. simpl. rewrite Ho.
      unfold Groups.addLayout. apply Bool.negb_true_iff in Hp.
      rewrite Hp, Hfr. reflexivity.
    + intros g0 a Ha. apply add_layout_missing. exact Ha.
    + reflexivity.
    + intros o Ho. destruct (Hfresh o Ho) as [Hp Hfr].
      split; [now rewrite Hp | exact Hfr].
Qed.

Lemma adding_in_sequence_keeps_call_order_witness :
  exists g' rets logs,
    GroupBox.call_each Groups.add_widget sample_group
      [Some (Groups.mk_qobject 2 true false); None;
       Some (Groups.mk_qobject 3 false false); Some (Groups.mk_qobject 4 true true)]
    = Ok (g', rets, logs)
    /\ Groups._widget_container g'
       = [Groups.WidgetItem (Groups.mk_qobject 1 true true);
          Groups.WidgetItem (Groups.mk_qobject 2 true false);
          Groups.WidgetItem (Groups.mk_qobject 4 true true)]
    /\ map Messaging.truthy rets = [true; false; false; true]
    /\ List.length logs = 2%nat.
Proof.
  destruct (adding_in_sequence_keeps_call_order sample_group
              [Some (Groups.mk_qobject 2 true false); None;
               Some (Groups.mk_qobject 3 false false);
               Some (Groups.mk_qobject 4 true true)]) as [H _].
  { simpl. repeat constructor; simpl; intuition discriminate. }
  destruct H as [g' [rets [logs [E [Hc [_ [_ [_ [Hr Hn]]]]]]]]].
  { simpl. intros o [<-|[<-|[]]]; reflexivity. }
  exists g', rets, logs. split; [exact E|]. split; [exact Hc|].
  split; [exact Hr|]. simpl in Hn. lia.
Defined.

(** ** The group box: collapsing *)

(** X15.  [collapse_widgets(state)] returns (two nested calls are all
    the [toggled] signal ever causes) and leaves the container shown
    exactly when [state] is true, with the button checked exactly then;
    the height is fixed once, or twice when the button had to change.
    A click makes the container follow the button, not its own
    previous visibility: a group built with [init_visible=True] stays
    open at the first click and closes only at the second. *)
Theorem collapse_widgets_syncs_container_and_button :
  forall (d : nat) (p : GroupBox.panel) (state : bool),
    (exists p',
       GroupBox.collapse_widgets (S (S d)) p state = Ok p'
       /\ GroupBox.container_visible p' = state
       /\ GroupBox.toggle_checked p' = state
       /\ GroupBox.height_fixes p'
          = (GroupBox.height_fixes p
             + if Bool.eqb (GroupBox.toggle_checked p) state then 1 else 2)%nat)
    /\ (exists p',
       GroupBox.click (S (S d)) p = Ok p'
       /\ GroupBox.container_visible p' = negb (GroupBox.toggle_checked p)
       /\ GroupBox.toggle_checked p' = negb (GroupBox.toggle_checked p))
    /\ (exists p1 p2,
       GroupBox.click (S (S d)) (GroupBox.init_panel true) = Ok p1
       /\ GroupBox.container_visible p1 = true
       /\ GroupBox.click (S (S d)) p1 = Ok p2
       /\ GroupBox.container_visible p2 = false).
Proof.
  intros d p state. split; [|split].
  - destruct p as [v c h]. destruct state, c; simpl;
      eexists; (split; [reflexivity|]); simpl; repeat split; lia.
  - destruct p as [v c h]. destruct c; simpl; eexists; repeat split.
  - do 2 eexists. simpl. repeat split.
Qed.

(** ** The slider: construction and the one-sided range setters *)

Lemma setMinimum_raises (limit : nat) (self : Slider.DoubleSlider) (v : Q) :
  returns (Slider.setMinimum limit self v) = false.
Proof.
  destruct limit as [|d]; [reflexivity|]. simpl. unfold Slider.setMinimum_body.
  destruct (getattr (Slider._max_value self)); simpl; [|reflexivity].
  now rewrite setRange_raises.
Qed.

Lemma setMaximum_raises (limit : nat) (self : Slider.DoubleSlider) (v : Q) :
  returns (Slider.setMaximum limit self v) = false.
Proof.
  destruct limit as [|d]; [reflexivity|]. simpl. unfold Slider.setMaximum_body.
  destruct (getattr (Slider._min_value self)); simpl; [|reflexivity].
  now rewrite setRange_raises.
Qed.

(** X16.  [DoubleSlider()] never yields an instance: [__init__] calls
    [self.setMinimum(0)], the override, which reads [_max_value] before
    any attribute has been assigned; the call ends in [AttributeError]
    (in [RecursionError] if fewer than two nested calls are allowed). *)
Theorem DoubleSlider_cannot_be_constructed :
  forall limit : nat,
    returns (Slider.__init__ limit) = false
    /\ Slider.__init__ (S (S limit)) = Raise "AttributeError".
Proof.
  intros limit. split; [|reflexivity].
  destruct limit as [|[|d]]; reflexivity.
Qed.

(** X17.  [setMinimum(v)] and [setMaximum(v)] never return, in any
    state: each reads the other bound and calls [setRange], which ends
    in [RecursionError]; on an instance that lacks the other bound they
    end in [AttributeError] instead. *)
Theorem one_sided_range_setters_never_return :
  forall (limit : nat) (self : Slider.DoubleSlider) (raw : Z) (lo hi v : Q),
    returns (Slider.setMinimum limit self v) = false
    /\ returns (Slider.setMaximum limit self v) = false
    /\ Slider.setMinimum (S limit) (Slider.at_position raw lo hi) v
       = Raise "RecursionError"
    /\ Slider.setMaximum (S limit) (Slider.at_position raw lo hi) v
       = Raise "RecursionError"
    /\ Slider.setMinimum (S limit)
         (Slider.mk_DoubleSlider Slider.QSlider_init None None None) v
       = Raise "AttributeError"
    /\ Slider.setMaximum (S limit)
         (Slider.mk_DoubleSlider Slider.QSlider_init None None None) v
       = Raise "AttributeError".
Proof.
  intros limit self raw lo hi v.
  split; [apply setMinimum_raises|]. split; [apply setMaximum_raises|].
  split; [|split; [|split; reflexivity]].
  - simpl. unfold Slider.setMinimum_body. simpl. apply setRange_raises.
  - simpl. unfold Slider.setMaximum_body. simpl. apply setRange_raises.
Qed.

(** ** The slider, as other code meets it *)

Lemma DoubleSlider_init_returns_nothing (limit : nat) :
  returns (Slider.__init__ limit) = false.
Proof.
  destruct limit as [|[|d]]; reflexivity.
Qed.

(** ** The input dialog *)

Section DialogFacts.

Variables (pyval obj world : Type).
Variable truthy : pyval -> bool.
Variable obj_truthy : world -> obj -> bool.
Variable is_type : pyval -> Dialog.pytype -> bool.
Variable iterate : pyval -> result (list pyval).
Variable str_of : pyval -> result string.
Variable contains : pyval -> pyval -> result bool.
Variable index_of : pyval -> pyval -> result pyval.
Variable slider_obj : Slider.DoubleSlider -> obj.
Variable call : string -> list (Dialog.arg pyval obj) -> world -> result (obj * world).

Let dialog :=
  Dialog.multi_input_dialog pyval obj world truthy obj_truthy is_type
    iterate str_of contains index_of slider_obj call.

Ltac step_call :=
  match goal with
  | |- context [call ?n ?a ?w] =>
      let E := fresh "E" in
      destruct (call n a w) as [[? ?]|?] eqn:E; cbn beta iota;
      [|first [reflexivity
              | match goal with
                | H : forall n0 a0 w0, returns (call n0 a0 w0) = true |- _ =>
                    let H' := fresh "H" in
                    pose proof (H n a w) as H'; rewrite E in H'; discriminate H'
                end]]
  end.

(** X18.  [multi_input_dialog] cannot be called without a ['label']
    entry: with [data] left at its default [None], or with a [dict]
    that has no key ['label'] (such as one keyed by the labels
    themselves), it never returns a widget, whatever the toolkit does;
    when the toolkit's calls return, it ends in [TypeError] for [None]
    and in [KeyError] for the [dict]. *)
Theorem dialog_without_label_never_returns :
  forall (limit : nat) (parent title header : pyval)
         (data : option (Dialog.dict pyval))
         (yes_label no_label yes_callback no_callback : pyval) (w : world),
    (data = None
     \/ exists d, data = Some d /\ Dialog.lookup pyval "label" d = None) ->
    returns (dialog limit parent title header data
               yes_label no_label yes_callback no_callback w) = false
    /\ ((forall name args w0, returns (call name args w0) = true) ->
        dialog limit parent title header data
          yes_label no_label yes_callback no_callback w
        = Raise (match data with None => "TypeError" | Some _ => "KeyError" end)).
Proof.
  intros limit parent title header data yl nl ycb ncb w Hdata.
  assert (Hsub : forall w0, Dialog.subscript pyval world data "label" w0
                 = Raise (match data with None => "TypeError" | Some _ => "KeyError" end)).
  { intros w0. destruct Hdata as [->|[d [-> Hd]]]; [reflexivity|].
    unfold Dialog.subscript. rewrite Hd. reflexivity. }
  split; [|intros Hcoop];
    unfold dialog, Dialog.multi_input_dialog, Dialog.call_, Dialog.mbind, Dialog.ret;
    do 5 step_call; rewrite Hsub; reflexivity.
Qed.

(** X19.  A ['float'] entry cannot be shown: with [data['type'] == float]
    the method reaches [DoubleSlider()], which never yields an instance,
    so no widget is returned whatever the toolkit does and whatever else
    [data] holds; when the toolkit's calls return, the call ends in the
    [AttributeError] of the slider's [__init__]. *)
Theorem dialog_with_float_entry_never_returns :
  forall (limit : nat) (parent title header : pyval)
         (d : Dialog.dict pyval) (label ty : pyval)
         (yes_label no_label yes_callback no_callback : pyval) (w : world),
    Dialog.lookup pyval "label" d = Some label ->
    Dialog.lookup pyval "type" d = Some ty ->
    is_type ty Dialog.TStr = false ->
    is_type ty Dialog.TFloat = true ->
    returns (dialog limit parent title header (Some d)
               yes_label no_label yes_callback no_callback w) = false
    /\ ((forall name args w0, returns (call name args w0) = true) ->
        dialog (S (S limit)) parent title header (Some d)
          yes_label no_label yes_callback no_callback w
        = Raise "AttributeError").
Proof.
  intros limit parent title header d label ty yl nl ycb ncb w Hl Ht Hs Hf.
  split; [|intros Hcoop];
    unfold dialog, Dialog.multi_input_dialog, Dialog.call_, Dialog.mbind, Dialog.ret;
    do 5 step_call;
    unfold Dialog.subscript, Dialog.has_key; rewrite Hl; unfold Dialog.ret;
    cbn beta iota; step_call; rewrite Ht; cbn beta iota;
    unfold Dialog.make_item, Dialog.mbind, Dialog.lift; rewrite Hs, Hf.
  - pose proof (DoubleSlider_init_returns_nothing limit) as Hi.
    destruct (Slider.__init__ limit); [discriminate Hi | reflexivity].
  - reflexivity.
Qed.

(** X20.  A ['str'] entry is shown whenever the toolkit's calls return:
    with a ['label'] and [data['type'] == str] the method returns the
    very object its first call, [QWidget(parent)], created, and the
    [item] attribute it sets on that widget is the object [QLineEdit()]
    created (the seventh call, after the layout, the header label, its
    insertion, the row layout and the label of the entry); [title] has
    no part in any of this. *)
Theorem dialog_with_str_entry_returns :
  forall (limit : nat) (parent title header : pyval)
         (d : Dialog.dict pyval) (label ty : pyval)
         (yes_label no_label yes_callback no_callback : pyval) (w : world),
    Dialog.lookup pyval "label" d = Some label ->
    Dialog.lookup pyval "type" d = Some ty ->
    is_type ty Dialog.TStr = true ->
    is_type ty Dialog.TFloat = false ->
    is_type ty Dialog.TInt = false ->
    is_type ty Dialog.TList = false ->
    (forall name args w0, returns (call name args w0) = true) ->
    exists widget w1 layout w2 header_widget w3 added w4 hbox w5 label_widget w6
           item w7 w',
      call "QWidget" [Dialog.V pyval obj parent] w = Ok (widget, w1)
      /\ call "QVBoxLayout" [] w1 = Ok (layout, w2)
      /\ call "QLabel" [Dialog.V pyval obj header] w2 = Ok (header_widget, w3)
      /\ call "addWidget" [Dialog.O pyval obj layout; Dialog.O pyval obj header_widget] w3
         = Ok (added, w4)
      /\ call "QHBoxLayout" [] w4 = Ok (hbox, w5)
      /\ call "QLabel" [Dialog.V pyval obj label] w5 = Ok (label_widget, w6)
      /\ call "QLineEdit" [] w6 = Ok (item, w7)
      /\ dialog limit parent title header (Some d)
           yes_label no_label yes_callback no_callback w
         = Ok ((widget, Some (Some item)), w')
      /\ forall title',
           dialog limit parent title' header (Some d)
             yes_label no_label yes_callback no_callback w
           = dialog limit parent title header (Some d)
               yes_label no_label yes_callback no_callback w.
Proof.
  intros limit parent title header d label ty yl nl ycb ncb w
         Hl Ht Hs Hf Hi Hli Hcoop.
  unfold dialog, Dialog.multi_input_dialog, Dialog.call_, Dialog.mbind, Dialog.ret.
  do 5 step_call.
  unfold Dialog.subscript, Dialog.has_key. rewrite Hl. unfold Dialog.ret.
  cbn beta iota. step_call. rewrite Ht. cbn beta iota.
  unfold Dialog.make_item, Dialog.mbind, Dialog.ret. rewrite Hs.
  step_call.
  unfold Dialog.when, Dialog.fill_item, Dialog.when, Dialog.call_, Dialog.mbind,
    Dialog.subscript, Dialog.ret, Dialog.has_key.
  rewrite Hs, Hf, Hi, Hli. cbn [orb andb].
  rewrite Bool.andb_false_r.
  repeat first
    [ progress cbn beta iota
    | step_call
    | match goal with
      | |- context [obj_truthy ?a ?b] => destruct (obj_truthy a b); cbn beta iota
      | |- context [truthy ?a] => destruct (truthy a); cbn beta iota
      | |- context [match Dialog.lookup pyval ?k d with _ => _ end] =>
          destruct (Dialog.lookup pyval k d); cbn beta iota
      end ];
    do 15 eexists;
    repeat (split; [first [reflexivity | eassumption]|]);
    intros; reflexivity.
Qed.

End DialogFacts.

Lemma sample_toolkit_calls_return :
  forall name args w0, returns (SampleToolkit.call name args w0) = true.
Proof. reflexivity. Qed.

Lemma dialog_without_label_never_returns_witness :
  SampleToolkit.run 5 None = Raise "TypeError"
  /\ SampleToolkit.run 5
       (Some [("name", SampleToolkit.Str "a default string");
              ("type", SampleToolkit.Type_ Dialog.TStr)])
     = Raise "KeyError".
Proof.
  split.
  - apply (dialog_without_label_never_returns SampleToolkit.value nat nat);
      [now left | exact sample_toolkit_calls_return].
  - refine (proj2 (dialog_without_label_never_returns SampleToolkit.value nat nat
             _ _ _ _ _ _ _ _ _ _ _ _ _
             (Some [("name", SampleToolkit.Str "a default string");
                    ("type", SampleToolkit.Type_ Dialog.TStr)])
             _ _ _ _ _ _) sample_toolkit_calls_return).
    right. eexists. split; reflexivity.
Defined.

Lemma dialog_with_float_entry_never_returns_witness :
  SampleToolkit.run 5
    (Some [("label", SampleToolkit.Str "float label");
           ("type", SampleToolkit.Type_ Dialog.TFloat);
           ("default", SampleToolkit.Num 3)])
  = Raise "AttributeError".
Proof.
  refine (proj2 (dialog_with_float_entry_never_returns SampleToolkit.value nat nat
           _ _ _ _ _ _ _ _ _ 3 _ _ _
           [("label", SampleToolkit.Str "float label");
            ("type", SampleToolkit.Type_ Dialog.TFloat);
            ("default", SampleToolkit.Num 3)]
           (SampleToolkit.Str "float label") (SampleToolkit.Type_ Dialog.TFloat)
           _ _ _ _ _ eq_refl eq_refl eq_refl eq_refl) sample_toolkit_calls_return).
Defined.

Lemma dialog_with_str_entry_returns_witness :
  exists w',
    SampleToolkit.run 5
      (Some [("label", SampleToolkit.Str "str label");
             ("type", SampleToolkit.Type_ Dialog.TStr);
             ("default", SampleToolkit.Str "a default string");
             ("help", SampleToolkit.Str "help associated with the str")])
    = Ok ((0%nat, Some (Some 6%nat)), w').
Proof.
  destruct (dialog_with_str_entry_returns SampleToolkit.value nat nat
              SampleToolkit.truthy (fun _ _ => true) SampleToolkit.is_type
              (fun _ => Raise "TypeError") (fun _ => Raise "TypeError")
              (fun _ _ => Raise "TypeError") (fun _ _ => Raise "TypeError")
              (fun _ => 0%nat) SampleToolkit.call 5
              SampleToolkit.NoValue (SampleToolkit.Str "Multiple Input Dialog Box")
              (SampleToolkit.Str "header")
              [("label", SampleToolkit.Str "str label");
               ("type", SampleToolkit.Type_ Dialog.TStr);
               ("default", SampleToolkit.Str "a default string");
               ("help", SampleToolkit.Str "help associated with the str")]
              (SampleToolkit.Str "str label") (SampleToolkit.Type_ Dialog.TStr)
              (SampleToolkit.Str "Yes") (SampleToolkit.Str "No")
              SampleToolkit.NoValue SampleToolkit.NoValue 0%nat
              eq_refl eq_refl eq_refl eq_refl eq_refl eq_refl
              sample_toolkit_calls_return)
    as (widget & w1 & layout & w2 & header_widget & w3 & added & w4 & hbox & w5
        & label_widget & w6 & item & w7 & w' & H1 & H2 & H3 & H4 & H5 & H6 & H7
        & H & _).
  unfold SampleToolkit.call in H1, H2, H3, H4, H5, H6, H7.
  inversion H1; subst. inversion H2; subst. inversion H3; subst.
  inversion H4; subst. inversion H5; subst. inversion H6; subst.
  inversion H7; subst.
  exists w'. exact H.
Defined.

(** ** From a failure of the group box to the console *)

Lemma has_newline_append (a b : string) :
  has_newline (a ++ b) = has_newline a || has_newline b.
Proof.
  induction a as [|c a IH]; simpl; [reflexivity|].
  rewrite IH. now rewrite Bool.orb_assoc.
Qed.

Lemma split_single_line (s : string) :
  has_newline s = false -> Logging.split_first_line s = [s].
Proof.
  intros H. destruct (split_first_line_parts s) as [[E _]|[a [b [_ [Hs _]]]]];
    [exact E|].
  rewrite Hs, !has_newline_append in H. simpl in H.
  rewrite Bool.orb_true_r in H. discriminate H.
Qed.





(** X22.  What a failure of the group box looks like on the console:
    the record [add_layout], [add_widget], [set_title] or [set_label]
    logs, handed to a fresh [Logger()], comes out as one line, "ERROR: "
    and ten spaces followed by the message the [Failure] carries
    (given a prefix [_insert] without a newline), then the terminator;
    on a terminal that line is wrapped in the red escape sequence and
    the reset. *)
Theorem group_failure_on_the_console :
  forall (g : Groups.Group) (text : string) (tty : bool) (o : Groups.outcome),
    has_newline (Groups._insert g) = false ->
    has_newline text = false ->
    Groups.fail_with g text = Ok o ->
    Groups.logged o = [("ERROR", Groups._insert g ++ text)]
    /\ Messaging.message (Groups.returned o) = Some (Groups._insert g ++ text)
    /\ Console.error (Console.Logger tty) (Groups._insert g ++ text)
       = [ (if tty
            then Logging.csi ++ "31m"
                 ++ ("ERROR: " ++ Logging.spaces 10 ++ Groups._insert g ++ text)
                 ++ Logging.reset
            else "ERROR: " ++ Logging.spaces 10 ++ Groups._insert g ++ text);
           Logging.nl ].
Proof.
  intros g text tty o Hi Ht Hf.
  unfold Groups.fail_with in Hf. inversion Hf; subst o; clear Hf.
  split; [reflexivity|]. split; [reflexivity|].
  assert (Hn : has_newline ("ERROR: " ++ Logging.spaces 10 ++ Groups._insert g ++ text)
               = false).
  { rewrite !has_newline_append, Hi, Ht. reflexivity. }
  unfold Console.error, Console.log, Console.isEnabledFor, Console.emit,
    Console.Logger.
  cbn [Console.threshold Console.handler_level Console.shows_level Console.table
       Console.is_tty Console.cache Console.remembered].
  change ((Logging.ERROR <=? 0)%Z) with false.
  change ((Logging.DEBUG <=? Logging.ERROR)%Z) with true. cbn [andb].
  change (Console.levelname Logging.ERROR) with "ERROR".
  change (Logging.format_with_level "ERROR" (Groups._insert g ++ text))
    with ("ERROR: " ++ Logging.spaces 10 ++ Groups._insert g ++ text).
  unfold Logging.handler_format.
  destruct tty; cbn [negb].
  - rewrite (split_single_line _ Hn). cbn [String.concat].
    unfold Logging.colorize. change (Logging.lookup_level Logging.ERROR Logging.level_map)
      with (Some (@None string, "red", false)).
    cbn [Logging.params_of].
    reflexivity.
  - reflexivity.
Qed.

Lemma group_failure_on_the_console_witness :
  Console.error (Console.Logger false)
    "gui_elements.Group.set_title(): title Argument missing"
  = ["ERROR:           gui_elements.Group.set_title(): title Argument missing";
     Logging.nl].
Proof.
  destruct (group_failure_on_the_console sample_group
              "set_title(): title Argument missing" false _
              eq_refl eq_refl eq_refl) as [_ [_ H]].
  exact H.
Defined.
